(** * Anthropic plugin for Genkit: the conversion layer of [claude.ts]

    A shallow embedding of the pure conversion functions of
    [src/plugins/anthropic/src/claude.ts] and the properties of the
    specification checked against them.

    Conventions of the embedding.
    - A JavaScript string is held as the bytes of its UTF-8 encoding
      ([String.string]).  The only place where the code looks inside a string
      is the data-URL regular expression; its literals and the character [;]
      are ASCII, and the line terminators U+2028 and U+2029 that [.] refuses
      are recognised through their three-byte encodings.
    - [undefined] on an optional field of a typed record is [None].
    - A [throw] is the [Err] case of [Result]; the message text, which embeds
      [JSON.stringify] of the offending value, is replaced by a constructor
      of [Error] carrying that value. *)

From Stdlib Require Import Strings.String Strings.Ascii Lists.List ZArith QArith
  Bool Lia Numbers.DecimalString.
Import ListNotations.

#[local] Set Warnings "-register-all".
Local Close Scope Q_scope.
Local Open Scope list_scope.
Local Open Scope string_scope.

(** ** Untyped JavaScript data

    Tool inputs and outputs have the TypeScript type [unknown].  They are
    modelled as JSON-like values.  [JNum z] is an integer-valued number in the
    safe range, the only numbers [JSON.stringify] prints in plain decimal.  The
    fields of [JObj] are listed in the object's own enumeration order, with
    distinct keys. *)

Inductive JsVal : Type :=
| JUndefined
| JNull
| JBool (b : bool)
| JNum (z : Z)
| JStr (s : string)
| JArr (items : list JsVal)
| JObj (fields : list (string * JsVal)).

Module Js.

(** [obj[key]] on the own fields of an object literal. *)
Fixpoint getField (key : string) (fields : list (string * JsVal)) : option JsVal :=
  match fields with
  | [] => None
  | (k, v) :: rest => if String.eqb k key then Some v else getField key rest
  end.

(** [v.key] for any value: primitives and arrays have no such property of
    their own, and neither [url] nor [contentType] is inherited. *)
Definition prop (v : JsVal) (key : string) : JsVal :=
  match v with
  | JObj fields =>
      match getField key fields with
      | Some x => x
      | None => JUndefined
      end
  | _ => JUndefined
  end.

(** [a ?? b]. *)
Definition nullish (v : JsVal) : bool :=
  match v with
  | JUndefined | JNull => true
  | _ => false
  end.

Definition coalesce (a b : JsVal) : JsVal := if nullish a then b else a.

(** [typeof v === 'string']. *)
Definition isString (v : JsVal) : bool :=
  match v with
  | JStr _ => true
  | _ => false
  end.

(** Truthiness of a string: only the empty string is falsy. *)
Definition truthyString (s : string) : bool :=
  match s with
  | EmptyString => false
  | String _ _ => true
  end.

(** Truthiness of an optional string ([undefined] or a string). *)
Definition truthyOptString (o : option string) : bool :=
  match o with
  | Some s => truthyString s
  | None => false
  end.

(** [Array.prototype.join]. *)
Fixpoint join (sep : string) (l : list string) : string :=
  match l with
  | [] => ""
  | [x] => x
  | x :: rest => x ++ sep ++ join sep rest
  end.

(** The double quote and the backslash, by code. *)
Definition dquote : ascii := ascii_of_N 34.
Definition backslash : ascii := ascii_of_N 92.

Definition hexDigit (n : N) : ascii :=
  ascii_of_N (if (n <? 10)%N then 48 + n else 87 + n)%N.

(** [QuoteJSONString] on one code unit. *)
Definition quoteChar (c : ascii) : string :=
  let n := N_of_ascii c in
  if (n =? 34)%N then String backslash (String dquote "")
  else if (n =? 92)%N then String backslash (String backslash "")
  else if (n =? 8)%N then "\b"
  else if (n =? 9)%N then "\t"
  else if (n =? 10)%N then "\n"
  else if (n =? 12)%N then "\f"
  else if (n =? 13)%N then "\r"
  else if (n <? 32)%N then
    "\u00" ++ String (hexDigit (n / 16)) (String (hexDigit (n mod 16)) "")
  else String c "".

Fixpoint quoteBody (s : string) : string :=
  match s with
  | EmptyString => ""
  | String c rest => quoteChar c ++ quoteBody rest
  end.

Definition quote (s : string) : string :=
  String dquote (quoteBody s ++ String dquote "").

(** [Number::toString] on a safe integer (at most 2^53 - 1 away from zero):
    plain decimal.  Larger magnitudes, which JavaScript prints from 10^21 on
    with an exponent, and fractions are outside the values the embedding
    stands for; statements about the printed text assume [wellFormed]. *)
Definition numberToString (z : Z) : string :=
  NilZero.string_of_int (Z.to_int z).

(** [JSON.stringify(v)]: [None] is the [undefined] it returns for
    [undefined]; inside an array [undefined] prints as [null], inside an
    object the field is dropped. *)
Fixpoint stringify (v : JsVal) : option string :=
  match v with
  | JUndefined => None
  | JNull => Some "null"
  | JBool b => Some (if b then "true" else "false")
  | JNum z => Some (numberToString z)
  | JStr s => Some (quote s)
  | JArr items =>
      Some ("[" ++ join ","
              (map (fun x => match stringify x with
                             | Some s => s
                             | None => "null"
                             end) items) ++ "]")
  | JObj fields =>
      Some ("{" ++ join ","
              (flat_map (fun kv => match stringify (snd kv) with
                                   | Some s => [quote (fst kv) ++ ":" ++ s]
                                   | None => []
                                   end) fields) ++ "}")
  end.

End Js.

(** ** The canonical (Genkit) data model

    [Part] follows the Genkit type: four optional fields, of which the
    converters test the truthiness in a fixed order. *)

Inductive Role : Type := system | user | model | tool.

Record Media : Type := mkMedia {
  url : string;
  contentType : option string
}.

Record ToolRequest : Type := mkToolRequest {
  req_ref : option string;
  req_name : string;
  req_input : JsVal
}.

Record ToolResponse : Type := mkToolResponse {
  res_ref : option string;
  res_name : string;
  res_output : JsVal
}.

Record Part : Type := mkPart {
  text : option string;
  media : option Media;
  toolRequest : option ToolRequest;
  toolResponse : option ToolResponse
}.

Record MessageData : Type := mkMessageData {
  role : Role;
  content : list Part
}.

Definition textPart (s : string) : Part := mkPart (Some s) None None None.
Definition mediaPart (m : Media) : Part := mkPart None (Some m) None None.
Definition toolRequestPart (r : ToolRequest) : Part := mkPart None None (Some r) None.
Definition toolResponsePart (r : ToolResponse) : Part := mkPart None None None (Some r).

(** ** The provider (Anthropic) data model *)

Inductive AnthropicRole : Type := role_user | role_assistant.

Inductive BlockType : Type := type_text | type_image | type_tool_use | type_tool_result.

(** [TextBlock]'s text is [None] only when it holds the [undefined] that
    [JSON.stringify] returned.  [media_type] is a [JsVal] because the
    tool-response converter copies it from untyped data. *)
Inductive ContentBlock : Type :=
| TextBlock (text : option string)
| ImageBlock (data : string) (media_type : JsVal)
| ToolUseBlock (id : option string) (name : string) (input : JsVal)
| ToolResultBlock (tool_use_id : option string) (content : list ContentBlock).

Definition blockType (b : ContentBlock) : BlockType :=
  match b with
  | TextBlock _ => type_text
  | ImageBlock _ _ => type_image
  | ToolUseBlock _ _ _ => type_tool_use
  | ToolResultBlock _ _ => type_tool_result
  end.

Record MessageParam : Type := mkMessageParam {
  mp_role : AnthropicRole;
  mp_content : list ContentBlock
}.

(** ** Errors and the result monad

    One constructor per [throw] of the source. *)

Inductive Error : Type :=
| RoleDoesNotMap (r : Role)
| InvalidToolResponsePart (p : Part)
| InvalidPartMedia (m : Media)
| UnsupportedPartFields (p : Part)
| UnsupportedModel (modelName : string)
| OnlyTextOutputFormat.

Inductive Result (A : Type) : Type :=
| Ok (a : A)
| Err (e : Error).
Arguments Ok {A} a.
Arguments Err {A} e.

Definition bind {A B : Type} (r : Result A) (k : A -> Result B) : Result B :=
  match r with
  | Ok a => k a
  | Err e => Err e
  end.

Notation "x <- r ;; k" := (bind r (fun x => k))
  (at level 61, r at next level, right associativity).

(** [array.map(f)] where [f] may throw: the first exception aborts the map. *)
Fixpoint mapResult {A B : Type} (f : A -> Result B) (l : list A) : Result (list B) :=
  match l with
  | [] => Ok []
  | x :: rest =>
      y <- f x ;;
      ys <- mapResult f rest ;;
      Ok (y :: ys)
  end.

(** ** The data-URL pattern

    [url.match(/^data:([^;]+);base64,(.+)$/)].  The first group stops at the
    first semicolon, which the literal that follows must then match, so the
    match is unique: no backtracking can shorten the group.  The second group
    runs to the end of the input and [.] refuses the line terminators. *)

Module DataUrl.

(** [s] without the literal [lit] at its start, if it starts with it. *)
Fixpoint stripPrefix (lit s : string) : option string :=
  match lit, s with
  | EmptyString, _ => Some s
  | String a lit', String b s' =>
      if Ascii.eqb a b then stripPrefix lit' s' else None
  | String _ _, EmptyString => None
  end.

Definition isSemicolon (c : ascii) : bool := (N_of_ascii c =? 59)%N.

(** The longest prefix without a semicolon, and what follows it. *)
Fixpoint spanNoSemicolon (s : string) : string * string :=
  match s with
  | EmptyString => (EmptyString, EmptyString)
  | String c rest =>
      if isSemicolon c then (EmptyString, s)
      else let '(a, b) := spanNoSemicolon rest in (String c a, b)
  end.

(** Whether [s] holds a LineTerminator: LF, CR, or U+2028 / U+2029
    (bytes E2 80 A8 and E2 80 A9). *)
Fixpoint hasLineTerminator (s : string) : bool :=
  match s with
  | EmptyString => false
  | String c rest =>
      let n := N_of_ascii c in
      if ((n =? 10) || (n =? 13))%N then true
      else
        match rest with
        | String c1 (String c2 _) =>
            if ((n =? 226) && (N_of_ascii c1 =? 128)
                && ((N_of_ascii c2 =? 168) || (N_of_ascii c2 =? 169)))%N
            then true
            else hasLineTerminator rest
        | _ => hasLineTerminator rest
        end
  end.

End DataUrl.

Record Base64Data : Type := mkBase64Data {
  b64_contentType : string;
  b64_data : string
}.

Definition extractDataFromBase64Url (url : string) : option Base64Data :=
  match DataUrl.stripPrefix "data:" url with
  | None => None
  | Some rest =>
      let '(mime, tail) := DataUrl.spanNoSemicolon rest in
      if negb (Js.truthyString mime) then None
      else
        match DataUrl.stripPrefix ";base64," tail with
        | None => None
        | Some payload =>
            if negb (Js.truthyString payload) || DataUrl.hasLineTerminator payload
            then None
            else Some (mkBase64Data mime payload)
        end
  end.

(** ** Role Mapper *)

(** [toAnthropicRole(role, toolMessageType)].  The hint is the [type] of a
    content block, or [undefined]. *)
Definition toAnthropicRole (role : Role) (toolMessageType : option BlockType)
  : Result AnthropicRole :=
  match role with
  | user => Ok role_user
  | model => Ok role_assistant
  | tool =>
      Ok (match toolMessageType with
          | Some type_tool_use => role_assistant
          | _ => role_user
          end)
  | system => Err (RoleDoesNotMap role)
  end.

(** ** Content Block Converters *)

(** The [url] of a value that passes [isMediaObject]: an object (not [null])
    with a [url] field holding a string. *)
Definition mediaUrl (obj : JsVal) : option string :=
  match obj with
  | JObj fields =>
      match Js.getField "url" fields with
      | Some (JStr u) => Some u
      | _ => None
      end
  | _ => None
  end.

Definition isMediaObject (obj : JsVal) : bool :=
  match mediaUrl obj with
  | Some _ => true
  | None => false
  end.

(** [toAnthropicToolResponseContent(part)]. *)
Definition toAnthropicToolResponseContent (part : Part) : Result ContentBlock :=
  match toolResponse part with
  | None => Err (InvalidToolResponsePart part)
  | Some response =>
      let output := res_output response in
      let base64Data :=
        match mediaUrl output, output with
        | Some u, _ => extractDataFromBase64Url u
        | None, JStr s => extractDataFromBase64Url s
        | None, _ => None
        end in
      match base64Data with
      | Some b =>
          Ok (ImageBlock (b64_data b)
                (Js.coalesce (Js.prop output "contentType")
                             (JStr (b64_contentType b))))
      | None =>
          Ok (TextBlock match output with
                        | JStr s => Some s
                        | _ => Js.stringify output
                        end)
      end
  end.

(** [toAnthropicMessageContent(part)].  Each [if (part.f)] is a truthiness
    test: an object is always truthy, a string only when it is not empty. *)
Definition toAnthropicMessageContent (part : Part) : Result ContentBlock :=
  if Js.truthyOptString (text part) then Ok (TextBlock (text part))
  else
    match media part with
    | Some m =>
        let extracted := extractDataFromBase64Url (url m) in
        let data := option_map b64_data extracted in
        let contentType' := option_map b64_contentType extracted in
        match data, contentType' with
        | Some d, Some ct =>
            if negb (Js.truthyString d) then Err (InvalidPartMedia m)
            else Ok (ImageBlock d (JStr match contentType m with
                                        | Some explicit => explicit
                                        | None => ct
                                        end))
        | _, _ => Err (InvalidPartMedia m)
        end
    | None =>
        match toolRequest part with
        | Some request =>
            Ok (ToolUseBlock (req_ref request) (req_name request) (req_input request))
        | None =>
            match toolResponse part with
            | Some response =>
                c <- toAnthropicToolResponseContent part ;;
                Ok (ToolResultBlock (res_ref response) [c])
            | None => Err (UnsupportedPartFields part)
            end
        end
    end.

(** [fromAnthropicContentBlock(contentBlock)]: a block that is not a
    [tool_use] yields a part holding the block's [text] field, which only a
    text block has. *)
Definition fromAnthropicContentBlock (contentBlock : ContentBlock) : Part :=
  match contentBlock with
  | ToolUseBlock id name input =>
      toolRequestPart (mkToolRequest id name input)
  | TextBlock t => mkPart t None None None
  | _ => mkPart None None None None
  end.

(** ** Message Sequence Converter *)

Definition isToolBlock (c : ContentBlock) : bool :=
  match blockType c with
  | type_tool_use | type_tool_result => true
  | _ => false
  end.

(** The body of the [for] loop of [toAnthropicMessages].  [new
    GenkitMessage(message).content] is the content of a typed message
    unchanged. *)
Definition convertMessage (message : MessageData) : Result MessageParam :=
  content' <- mapResult toAnthropicMessageContent (content message) ;;
  let toolMessageType := find isToolBlock content' in
  role' <- toAnthropicRole (role message) (option_map blockType toolMessageType) ;;
  Ok (mkMessageParam role' content').

(** The loop itself, pushing onto [anthropicMsgs]. *)
Fixpoint convertLoop (messagesToIterate : list MessageData)
    (anthropicMsgs : list MessageParam) : Result (list MessageParam) :=
  match messagesToIterate with
  | [] => Ok anthropicMsgs
  | message :: rest =>
      msg <- convertMessage message ;;
      convertLoop rest (anthropicMsgs ++ [msg])%list
  end.

(** [messages[0]?.role === 'system' ? messages[0].content?.[0]?.text : undefined]. *)
Definition systemOf (messages : list MessageData) : option string :=
  match messages with
  | first :: _ =>
      match role first with
      | system =>
          match content first with
          | p :: _ => text p
          | [] => None
          end
      | _ => None
      end
  | [] => None
  end.

(** [system ? messages.slice(1) : messages]. *)
Definition messagesToIterate (messages : list MessageData) : list MessageData :=
  if Js.truthyOptString (systemOf messages) then tl messages else messages.

Record AnthropicMessages : Type := mkAnthropicMessages {
  am_system : option string;
  am_messages : list MessageParam
}.

Definition toAnthropicMessages (messages : list MessageData)
  : Result AnthropicMessages :=
  let system' := systemOf messages in
  anthropicMsgs <- convertLoop (messagesToIterate messages) [] ;;
  Ok (mkAnthropicMessages system' anthropicMsgs).

(** ** Tool Definition Converter *)

Record ToolDefinition : Type := mkToolDefinition {
  td_name : string;
  td_description : string;
  td_inputSchema : JsVal
}.

Record Tool : Type := mkTool {
  t_name : string;
  t_description : string;
  t_input_schema : JsVal
}.

Definition toAnthropicTool (tool' : ToolDefinition) : Tool :=
  mkTool (td_name tool') (td_description tool') (td_inputSchema tool').

(** ** Request Body Builder *)

(** A JavaScript number, as far as its truthiness goes: every finite double
    is a rational ([-0] is [Fin 0]). *)
Inductive JsNumber : Type :=
| NaN
| Infinity (negative : bool)
| Fin (q : Q).

Inductive ToolChoice : Type :=
| choice_auto
| choice_any
| choice_tool (name : string).

Record Metadata : Type := mkMetadata {
  user_id : option string
}.

(** [AnthropicConfigSchema]: the common generation config of Genkit extended
    with [tool_choice] and [metadata]. *)
Record Config : Type := mkConfig {
  version : option string;
  temperature : option JsNumber;
  maxOutputTokens : option JsNumber;
  topK : option JsNumber;
  topP : option JsNumber;
  stopSequences : option (list string);
  tool_choice : option ToolChoice;
  metadata : option Metadata
}.

Record OutputConfig : Type := mkOutputConfig {
  format : option string
}.

Record GenerateRequest : Type := mkGenerateRequest {
  messages : list MessageData;
  tools : option (list ToolDefinition);
  config : option Config;
  output : option OutputConfig
}.

(** The value of a field of the request body. *)
Inductive BodyValue : Type :=
| BUndefined
| BString (s : string)
| BNumber (n : JsNumber)
| BBoolean (b : bool)
| BMessages (l : list MessageParam)
| BTools (l : list Tool)
| BStrings (l : list string)
| BMetadata (m : Metadata)
| BToolChoice (t : ToolChoice).

(** The body, an object: its own fields in insertion order. *)
Definition Body : Type := list (string * BodyValue).

Module BodyOps.

Definition truthyNumber (n : JsNumber) : bool :=
  match n with
  | NaN => false
  | Infinity _ => true
  | Fin q => negb (Qeq_bool q 0%Q)
  end.

(** [!!v]. *)
Definition truthy (v : BodyValue) : bool :=
  match v with
  | BUndefined => false
  | BString s => Js.truthyString s
  | BNumber n => truthyNumber n
  | BBoolean b => b
  | BMessages _ | BTools _ | BStrings _ | BMetadata _ | BToolChoice _ => true
  end.

(** [Array.isArray(v) && !v.length]. *)
Definition isEmptyArray (v : BodyValue) : bool :=
  match v with
  | BMessages [] | BTools [] | BStrings [] => true
  | _ => false
  end.

(** [body[key]]; every key the builder uses is an own field or absent. *)
Fixpoint get (key : string) (body : Body) : option BodyValue :=
  match body with
  | [] => None
  | (k, v) :: rest => if String.eqb k key then Some v else get key rest
  end.

(** [delete body[key]]. *)
Fixpoint delete (key : string) (body : Body) : Body :=
  match body with
  | [] => []
  | (k, v) :: rest =>
      if String.eqb k key then delete key rest else (k, v) :: delete key rest
  end.

Definition keys (body : Body) : list string := map fst body.

(** One turn of the [for (const key in body)] loop. *)
Definition stripStep (body : Body) (key : string) : Body :=
  match get key body with
  | Some v => if negb (truthy v) || isEmptyArray v then delete key body else body
  | None => body
  end.

(** The whole loop: the keys are those the body has when the loop starts;
    a turn deletes at most its own key, so none is skipped. *)
Definition strip (body : Body) : Body := fold_left stripStep (keys body) body.

Definition ofOption {A : Type} (f : A -> BodyValue) (o : option A) : BodyValue :=
  match o with
  | Some a => f a
  | None => BUndefined
  end.

End BodyOps.

(** *** The model registry *)

Record ModelReference : Type := mkModelReference {
  mr_name : string;
  mr_version : option string
}.

Definition claude35Sonnet : ModelReference :=
  mkModelReference "anthropic/claude-3-5-sonnet" (Some "claude-3-5-sonnet-20240620").
Definition claude3Opus : ModelReference :=
  mkModelReference "anthropic/claude-3-opus" (Some "claude-3-opus-20240229").
Definition claude3Sonnet : ModelReference :=
  mkModelReference "anthropic/claude-3-sonnet" (Some "claude-3-sonnet-20240229").
Definition claude3Haiku : ModelReference :=
  mkModelReference "anthropic/claude-3-haiku" (Some "claude-3-haiku-20240307").

Definition SUPPORTED_CLAUDE_MODELS : list (string * ModelReference) :=
  [ ("claude-3-5-sonnet", claude35Sonnet);
    ("claude-3-opus", claude3Opus);
    ("claude-3-sonnet", claude3Sonnet);
    ("claude-3-haiku", claude3Haiku) ].

(** The names every object literal inherits from [Object.prototype]; what
    they hold is truthy and has no [version]. *)
Definition objectPrototypeNames : list string :=
  [ "constructor"; "__defineGetter__"; "__defineSetter__"; "hasOwnProperty";
    "__lookupGetter__"; "__lookupSetter__"; "isPrototypeOf";
    "propertyIsEnumerable"; "toString"; "valueOf"; "__proto__";
    "toLocaleString" ].

Fixpoint ownModel (modelName : string) (registry : list (string * ModelReference))
  : option ModelReference :=
  match registry with
  | [] => None
  | (k, m) :: rest => if String.eqb k modelName then Some m else ownModel modelName rest
  end.

(** [SUPPORTED_CLAUDE_MODELS[modelName]], reduced to what the builder reads
    of it: [None] when the lookup is [undefined], else its [version]. *)
Definition lookupModelVersion (modelName : string) : option (option string) :=
  match ownModel modelName SUPPORTED_CLAUDE_MODELS with
  | Some m => Some (mr_version m)
  | None =>
      if existsb (String.eqb modelName) objectPrototypeNames then Some None
      else None
  end.

(** [request.config?.f]. *)
Definition configField {A : Type} (f : Config -> option A) (request : GenerateRequest)
  : option A :=
  match config request with
  | Some c => f c
  | None => None
  end.

(** [request.output?.format && request.output.format !== 'text']. *)
Definition nonTextFormat (request : GenerateRequest) : bool :=
  match output request with
  | Some o =>
      match format o with
      | Some f => Js.truthyString f && negb (String.eqb f "text")
      | None => false
      end
  | None => false
  end.

Definition DEFAULT_MAX_TOKENS : JsNumber := Fin (inject_Z 4096).

(** [request.config?.version ?? model.version ?? modelName]. *)
Definition mappedModelName (modelName : string) (modelVersion : option string)
    (request : GenerateRequest) : string :=
  match configField version request with
  | Some v => v
  | None =>
      match modelVersion with
      | Some v => v
      | None => modelName
      end
  end.

(** The object literal [body], before the stripping loop. *)
Definition bodyLiteral (modelName : string) (modelVersion : option string)
    (converted : AnthropicMessages) (request : GenerateRequest)
    (stream : option bool) : Body :=
  [ ("system", BodyOps.ofOption BString (am_system converted));
    ("messages", BMessages (am_messages converted));
    ("tools", BodyOps.ofOption BTools
                (option_map (map toAnthropicTool) (tools request)));
    ("max_tokens", BNumber match configField maxOutputTokens request with
                           | Some n => n
                           | None => DEFAULT_MAX_TOKENS
                           end);
    ("model", BString (mappedModelName modelName modelVersion request));
    ("top_k", BodyOps.ofOption BNumber (configField topK request));
    ("top_p", BodyOps.ofOption BNumber (configField topP request));
    ("temperature", BodyOps.ofOption BNumber (configField temperature request));
    ("stop_sequences", BodyOps.ofOption BStrings (configField stopSequences request));
    ("metadata", BodyOps.ofOption BMetadata (configField metadata request));
    ("tool_choice", BodyOps.ofOption BToolChoice (configField tool_choice request));
    ("stream", BodyOps.ofOption BBoolean stream) ].

Definition toAnthropicRequestBody (modelName : string) (request : GenerateRequest)
    (stream : option bool) : Result Body :=
  match lookupModelVersion modelName with
  | None => Err (UnsupportedModel modelName)
  | Some modelVersion =>
      converted <- toAnthropicMessages (messages request) ;;
      let body := bodyLiteral modelName modelVersion converted request stream in
      if nonTextFormat request then Err OnlyTextOutputFormat
      else Ok (BodyOps.strip body)
  end.

(** ** Response / Stream Reducer *)

(** The finish reasons of a Genkit candidate. *)
Inductive FinishReason : Type :=
| finish_stop
| finish_length
| finish_blocked
| finish_interrupted
| finish_other
| finish_unknown.

(** [fromAnthropicStopReason(reason)].  The reason is [null] ([None]) or a
    string; the [switch] compares it with four literals and has a
    [default]. *)
Definition fromAnthropicStopReason (reason : option string) : FinishReason :=
  match reason with
  | None => finish_unknown
  | Some r =>
      if String.eqb r "max_tokens" then finish_length
      else if String.eqb r "end_turn" then finish_stop
      else if String.eqb r "stop_sequence" then finish_stop
      else if String.eqb r "tool_use" then finish_stop
      else finish_other
  end.

Record Usage : Type := mkUsage {
  input_tokens : JsNumber;
  output_tokens : JsNumber
}.

(** The provider's response message, with the fields the reducer reads. *)
Record AnthropicMessage : Type := mkAnthropicMessage {
  msg_content : list ContentBlock;
  msg_stop_reason : option string;
  msg_usage : Usage
}.

Record GenerationUsage : Type := mkGenerationUsage {
  inputTokens : JsNumber;
  outputTokens : JsNumber
}.

Record CandidateData : Type := mkCandidateData {
  cand_index : nat;
  cand_finishReason : FinishReason;
  cand_message : MessageData
}.

Record GenerateResponseData : Type := mkGenerateResponseData {
  candidates : list CandidateData;
  usage : GenerationUsage;
  custom : AnthropicMessage
}.

(** [fromAnthropicResponse(response)]. *)
Definition fromAnthropicResponse (response : AnthropicMessage) : GenerateResponseData :=
  mkGenerateResponseData
    [ mkCandidateData 0
        (fromAnthropicStopReason (msg_stop_reason response))
        (mkMessageData model (map fromAnthropicContentBlock (msg_content response))) ]
    (mkGenerationUsage (input_tokens (msg_usage response))
                       (output_tokens (msg_usage response)))
    response.

(** The sub-object of a stream event ([content_block] or [delta]), with the
    fields the converter reads; each but [type] may be missing. *)
Record StreamFragment : Type := mkStreamFragment {
  frag_type : string;
  frag_text : option string;
  frag_id : option string;
  frag_name : option string;
  frag_input : JsVal
}.

Inductive MessageStreamEvent : Type :=
| message_start
| message_delta
| message_stop
| content_block_start (content_block : StreamFragment)
| content_block_delta (delta : StreamFragment)
| content_block_stop.

(** The part a stream event converts to.  It has the shape of a [Part], but
    the fields copied from a fragment may all be undefined, the name of the
    tool request included. *)
Record ToolRequestChunk : Type := mkToolRequestChunk {
  chunk_ref : option string;
  chunk_name : option string;
  chunk_input : JsVal
}.

Inductive PartChunk : Type :=
| ChunkText (text : option string)
| ChunkToolRequest (request : ToolRequestChunk).

(** [event[eventField]] for the two event types that pass the guard. *)
Definition eventField (event : MessageStreamEvent) : option StreamFragment :=
  match event with
  | content_block_start content_block => Some content_block
  | content_block_delta delta => Some delta
  | _ => None
  end.

(** [['text', 'text_delta'].includes(type)]. *)
Definition isTextType (type : string) : bool :=
  existsb (String.eqb type) ["text"; "text_delta"].

(** [fromAnthropicContentBlockChunk(event)]; [None] is the [undefined] of the
    early [return]. *)
Definition fromAnthropicContentBlockChunk (event : MessageStreamEvent)
  : option PartChunk :=
  match eventField event with
  | None => None
  | Some fragment =>
      Some (if isTextType (frag_type fragment)
            then ChunkText (frag_text fragment)
            else ChunkToolRequest
                   (mkToolRequestChunk (frag_id fragment) (frag_name fragment)
                                       (frag_input fragment)))
  end.

(** ** Runner / Registration

    The provider client is a collaborator: it is modelled by what its two
    calls answer.  A stream answers with the events it delivers and then
    either the finalized message or a failure; a failure in the middle of a
    stream is a shorter list of events followed by the failure.  What the
    runner does to the outside is recorded in a log, in order. *)

Record GenerateResponseChunkData : Type := mkGenerateResponseChunkData {
  chunk_index : nat;
  chunk_content : list PartChunk
}.

Inductive ClientAnswer : Type :=
| Answered (response : AnthropicMessage)
| Rejected (reason : string).

Record Client : Type := mkClient {
  messages_create : Body -> ClientAnswer;
  messages_stream : Body -> list MessageStreamEvent * ClientAnswer
}.

Inductive Effect : Type :=
| CallCreate (body : Body)
| CallStream (body : Body)
| Callback (chunk : GenerateResponseChunkData).

Inductive RunnerError : Type :=
| BodyError (e : Error)
| ClientError (reason : string).

Inductive Outcome : Type :=
| Resolved (response : GenerateResponseData)
| Failed (e : RunnerError).

(** The [for await (const chunk of stream)] loop: the log grows by one
    callback for each event that converts to a part. *)
Fixpoint streamLoop (events : list MessageStreamEvent) (log : list Effect)
  : list Effect :=
  match events with
  | [] => log
  | chunk :: rest =>
      match fromAnthropicContentBlockChunk chunk with
      | Some c =>
          streamLoop rest
            (log ++ [Callback (mkGenerateResponseChunkData 0 [c])])%list
      | None => streamLoop rest log
      end
  end.

Definition settle (answer : ClientAnswer) : Outcome :=
  match answer with
  | Answered response => Resolved (fromAnthropicResponse response)
  | Rejected reason => Failed (ClientError reason)
  end.

(** [claudeRunner(name, client)(request, streamingCallback)]; the callback is
    given by its presence, and its calls are logged. *)
Definition claudeRunner (name : string) (client : Client)
    (request : GenerateRequest) (streamingCallback : bool)
  : list Effect * Outcome :=
  match toAnthropicRequestBody name request (Some streamingCallback) with
  | Err e => ([], Failed (BodyError e))
  | Ok body =>
      if streamingCallback then
        let '(events, final) := messages_stream client body in
        (streamLoop events [CallStream body], settle final)
      else
        ([CallCreate body], settle (messages_create client body))
  end.

(** [claudeModel(ai, name, client)], as far as this module decides it: the
    identifier under which the runner is handed to [ai.defineModel], or the
    error thrown before. *)
Definition claudeModel (name : string) : Result string :=
  match lookupModelVersion name with
  | None => Err (UnsupportedModel name)
  | Some _ => Ok ("anthropic/" ++ name)
  end.

(** ** Vocabulary of the specification *)

(** What the pattern [data:<mime>;base64,<payload>] says, as a relation:
    [url] reads [data:], a non-empty [mime] free of semicolons, [;base64,],
    and a non-empty [payload] free of line terminators. *)
Fixpoint noSemicolon (s : string) : bool :=
  match s with
  | EmptyString => true
  | String c rest => negb (DataUrl.isSemicolon c) && noSemicolon rest
  end.

Definition MatchesDataUrl (url mime payload : string) : Prop :=
  url = "data:" ++ mime ++ ";base64," ++ payload
  /\ mime <> ""
  /\ noSemicolon mime = true
  /\ payload <> ""
  /\ DataUrl.hasLineTerminator payload = false.

(** How many of the four tags of a part are set. *)
Definition isSet {A : Type} (o : option A) : nat :=
  match o with
  | Some _ => 1
  | None => 0
  end.

Definition tagCount (p : Part) : nat :=
  isSet (text p) + isSet (media p) + isSet (toolRequest p) + isSet (toolResponse p).

(** The part reduced to the first of its set tags, in the order text, media,
    toolRequest, toolResponse. *)
Definition topTagOnly (p : Part) : Part :=
  match text p, media p, toolRequest p, toolResponse p with
  | Some s, _, _, _ => textPart s
  | None, Some m, _, _ => mediaPart m
  | None, None, Some r, _ => toolRequestPart r
  | None, None, None, Some r => toolResponsePart r
  | None, None, None, None => p
  end.

(** The converted content contains a [tool_use] block. *)
Definition containsToolUse (blocks : list ContentBlock) : bool :=
  existsb (fun b => match blockType b with
                    | type_tool_use => true
                    | _ => false
                    end) blocks.

(** The type of the first [tool_use] or [tool_result] block of the content. *)
Definition firstToolBlockType (blocks : list ContentBlock) : option BlockType :=
  option_map blockType (find isToolBlock blocks).

(** The values the embedding stands for.  A number is a safe integer, at
    most 2^53 - 1 away from zero: these are the integers a double holds
    exactly, and [JSON.stringify] prints them in plain decimal.  An object has
    no two fields of the same key. *)
Definition safeInteger (z : Z) : bool := (Z.abs z <=? 9007199254740991)%Z.

Fixpoint distinct (keys : list string) : bool :=
  match keys with
  | [] => true
  | k :: rest => negb (existsb (String.eqb k) rest) && distinct rest
  end.

Fixpoint wellFormed (v : JsVal) : bool :=
  match v with
  | JNum z => safeInteger z
  | JArr items => forallb wellFormed items
  | JObj fields =>
      distinct (map fst fields) && forallb (fun kv => wellFormed (snd kv)) fields
  | _ => true
  end.

(** The double quote as a string, to write JSON texts. *)
Definition dq : string := String Js.dquote "".

(** A media object and its url: an object with a field [url] that holds a
    string. *)
Inductive MediaObject : JsVal -> string -> Prop :=
| media_object (fields : list (string * JsVal)) (u : string) :
    In ("url", JStr u) fields -> MediaObject (JObj fields) u.

(** The string a tool output offers to the data-URL pattern: the url of a
    media object, or the output itself when it is a string. *)
Inductive DataUrlSource : JsVal -> string -> Prop :=
| source_media (output : JsVal) (u : string) :
    MediaObject output u -> DataUrlSource output u
| source_string (s : string) : DataUrlSource (JStr s) s.

(** The explicit content type of an output: the value of a field
    [contentType] of the object, when it is neither undefined nor null. *)
Inductive ExplicitContentType : JsVal -> JsVal -> Prop :=
| explicit_content_type (fields : list (string * JsVal)) (ct : JsVal) :
    In ("contentType", ct) fields -> ct <> JUndefined -> ct <> JNull ->
    ExplicitContentType (JObj fields) ct.

(** The falsy values of a body field: undefined, the empty string, zero, NaN
    and false. *)
Inductive Falsy : BodyValue -> Prop :=
| falsy_undefined : Falsy BUndefined
| falsy_empty_string : Falsy (BString "")
| falsy_zero (q : Q) : (q == 0)%Q -> Falsy (BNumber (Fin q))
| falsy_nan : Falsy (BNumber NaN)
| falsy_false : Falsy (BBoolean false).

(** The empty lists a body field can hold. *)
Inductive EmptyList : BodyValue -> Prop :=
| empty_messages : EmptyList (BMessages [])
| empty_tools : EmptyList (BTools [])
| empty_strings : EmptyList (BStrings []).

(** A body field the stripping loop removes: falsy, or an empty list. *)
Definition stripped (v : BodyValue) : bool :=
  negb (BodyOps.truthy v) || BodyOps.isEmptyArray v.

(** The fields the loop keeps, and those the turn for [key] leaves alone. *)
Definition kept (kv : string * BodyValue) : bool := negb (stripped (snd kv)).

Definition untouched (key : string) (kv : string * BodyValue) : bool :=
  negb (String.eqb (fst kv) key && stripped (snd kv)).

(** The data URL with the given type and payload. *)
Definition toDataUrl (mime payload : string) : string :=
  "data:" ++ mime ++ ";base64," ++ payload.

(** A response block that converts to a part which converts back: a
    [tool_use] block, or a text block with a non-empty text. *)
Definition resendable (b : ContentBlock) : bool :=
  match b with
  | ToolUseBlock _ _ _ => true
  | TextBlock t => Js.truthyOptString t
  | _ => false
  end.

(** The events that carry a part: block starts and block deltas. *)
Definition convertible (event : MessageStreamEvent) : bool :=
  match event with
  | content_block_start _ | content_block_delta _ => true
  | _ => false
  end.

(** The callbacks of a log, in order. *)
Definition callbacks (log : list Effect) : list GenerateResponseChunkData :=
  flat_map (fun e => match e with
                     | Callback chunk => [chunk]
                     | _ => []
                     end) log.

(** The part of a log that calls the client. *)
Definition clientCalls (log : list Effect) : list Effect :=
  filter (fun e => match e with
                   | Callback _ => false
                   | _ => true
                   end) log.

(** The twelve keys of the body literal, in order. *)
Definition bodyKeys : list string :=
  [ "system"; "messages"; "tools"; "max_tokens"; "model"; "top_k"; "top_p";
    "temperature"; "stop_sequences"; "metadata"; "tool_choice"; "stream" ].

(** What the body holds for an optional number of the config. *)
Definition numberField (n : option JsNumber) : option BodyValue :=
  match n with
  | Some x => if BodyOps.truthyNumber x then Some (BNumber x) else None
  | None => None
  end.

(** The chunks the streaming loop hands to the callback for a list of
    events: one per event that converts, each with index 0 and one part. *)
Definition emitted (events : list MessageStreamEvent) : list GenerateResponseChunkData :=
  flat_map (fun event => match fromAnthropicContentBlockChunk event with
                         | Some c => [mkGenerateResponseChunkData 0 [c]]
                         | None => []
                         end) events.

(** The first effect of a run whose body was built. *)
Definition clientCall (streamingCallback : bool) (body : Body) : Effect :=
  if streamingCallback then CallStream body else CallCreate body.

(** ** Sample data *)

Module Sample.

Definition systemThenUser : list MessageData :=
  [ mkMessageData system [textPart "S"]; mkMessageData user [textPart "hi"] ].

Definition emptySystemThenUser : list MessageData :=
  [ mkMessageData system [textPart ""]; mkMessageData user [textPart "hi"] ].

Definition fooOutput : JsVal := JObj [("foo", JNum 1)].

Definition fooResponse : ToolResponse := mkToolResponse (Some "call_1") "lookup" fooOutput.

Definition pngOutput : JsVal :=
  JObj [("url", JStr "data:image/png;base64,AAAA"); ("contentType", JStr "image/png")].

Definition weatherRequest : ToolRequest :=
  mkToolRequest (Some "call_2") "weather" (JObj [("city", JStr "Paris")]).

Definition requestWithoutRef : ToolRequest :=
  mkToolRequest None "weather" (JObj [("city", JStr "Paris")]).

(** A tool message that answers one call and issues another. *)
Definition resultThenUse : MessageData :=
  mkMessageData tool [ toolResponsePart fooResponse; toolRequestPart weatherRequest ].

Definition remoteMedia : Media := mkMedia "https://example.com/cat.png" (Some "image/png").

Definition inlineMedia : Media := mkMedia "data:image/png;base64,AAAA" None.

Definition remoteMediaAndRequest : Part :=
  mkPart None (Some remoteMedia) (Some weatherRequest) None.

Definition inlineMediaAndRequest : Part :=
  mkPart None (Some inlineMedia) (Some weatherRequest) None.

Definition zeroTokensConfig : Config :=
  mkConfig None (Some (Fin (7 # 10)%Q)) (Some (Fin 0%Q)) None None (Some []) None None.

Definition request : GenerateRequest :=
  mkGenerateRequest systemThenUser None (Some zeroTokensConfig) None.

End Sample.

Module Fixture.

(** A response that asks for a tool after a word of text. *)
Definition toolCall : AnthropicMessage :=
  mkAnthropicMessage
    [ TextBlock (Some "Let me check.");
      ToolUseBlock (Some "call_2") "weather" (JObj [("city", JStr "Paris")]) ]
    (Some "tool_use")
    (mkUsage (Fin (inject_Z 12)) (Fin (inject_Z 7))).

(** The events of a stream that delivers a text in two fragments. *)
Definition textEvents : list MessageStreamEvent :=
  [ message_start;
    content_block_start (mkStreamFragment "text" (Some "") None None JUndefined);
    content_block_delta (mkStreamFragment "text_delta" (Some "Let me") None None JUndefined);
    content_block_delta (mkStreamFragment "text_delta" (Some " check.") None None JUndefined);
    content_block_stop;
    message_delta;
    message_stop ].

(** A client that answers every call with [toolCall]. *)
Definition client : Client :=
  mkClient (fun _ => Answered toolCall) (fun _ => (textEvents, Answered toolCall)).

Definition userHi : GenerateRequest :=
  mkGenerateRequest [mkMessageData user [textPart "hi"]] None None None.

(** A request whose config sets every optional field. *)
Definition fullConfig : Config :=
  mkConfig (Some "claude-3-opus-latest") (Some (Fin (7 # 10)%Q))
    (Some (Fin (inject_Z 256))) (Some (Fin (inject_Z 40))) (Some (Fin (9 # 10)%Q))
    (Some ["END"]) (Some choice_auto) (Some (mkMetadata (Some "u1"))).

Definition fullRequest : GenerateRequest :=
  mkGenerateRequest Sample.systemThenUser
    (Some [mkToolDefinition "weather" "Looks up the weather." (JObj [("type", JStr "object")])])
    (Some fullConfig) (Some (mkOutputConfig (Some "text"))).

Definition userHiBody : Body :=
  [ ("messages", BMessages [mkMessageParam role_user [TextBlock (Some "hi")]]);
    ("max_tokens", BNumber (Fin (inject_Z 4096)));
    ("model", BString "claude-3-haiku-20240307") ].

End Fixture.

(** * Properties *)

(** ** The data-URL pattern *)

Lemma stripPrefix_spec (lit s rest : string) :
  DataUrl.stripPrefix lit s = Some rest <-> s = lit ++ rest.
Proof.
  revert s; induction lit as [|a lit IH]; intros s; simpl.
  - split; intros H; [injection H as ->|subst]; reflexivity.
  - destruct s as [|b s]; [split; discriminate|].
    destruct (Ascii.eqb_spec a b) as [->|Hne].
    + rewrite IH. split; intros H; [subst|injection H as ->]; reflexivity.
    + split; [discriminate|]. intros H; injection H as -> _. now elim Hne.
Qed.

Lemma spanNoSemicolon_append (mime rest : string) :
  noSemicolon mime = true ->
  DataUrl.spanNoSemicolon (mime ++ String ";" rest) = (mime, String ";" rest).
Proof.
  induction mime as [|c mime IH]; simpl; intros H.
  - reflexivity.
  - apply andb_prop in H as [Hc Hm]. apply negb_true_iff in Hc.
    rewrite Hc, (IH Hm). reflexivity.
Qed.

Lemma spanNoSemicolon_split (s a b : string) :
  DataUrl.spanNoSemicolon s = (a, b) -> s = a ++ b /\ noSemicolon a = true.
Proof.
  revert a b; induction s as [|c s IH]; simpl; intros a b H.
  - injection H as <- <-. split; reflexivity.
  - destruct (DataUrl.isSemicolon c) eqn:Hc.
    + injection H as <- <-. split; reflexivity.
    + destruct (DataUrl.spanNoSemicolon s) as [a' b'] eqn:Hs.
      injection H as <- <-. destruct (IH _ _ eq_refl) as [-> Ha].
      split; [reflexivity|]. simpl. now rewrite Hc, Ha.
Qed.

Lemma truthyString_nonempty (s : string) : Js.truthyString s = true <-> s <> "".
Proof. destruct s; simpl; split; congruence. Qed.

(** The extraction function computes exactly the matches of the pattern. *)
Lemma extractDataFromBase64Url_spec (url mime payload : string) :
  extractDataFromBase64Url url = Some (mkBase64Data mime payload)
  <-> MatchesDataUrl url mime payload.
Proof.
  unfold extractDataFromBase64Url, MatchesDataUrl. split.
  - destruct (DataUrl.stripPrefix "data:" url) as [rest|] eqn:Hp; [|discriminate].
    apply stripPrefix_spec in Hp.
    destruct (DataUrl.spanNoSemicolon rest) as [m tail] eqn:Hs.
    apply spanNoSemicolon_split in Hs as [-> Hm].
    destruct (Js.truthyString m) eqn:Htm; cbv [negb]; [|discriminate].
    destruct (DataUrl.stripPrefix ";base64," tail) as [pl|] eqn:Ht; [|discriminate].
    apply stripPrefix_spec in Ht.
    destruct (Js.truthyString pl) eqn:Htp; cbv [negb orb]; [|discriminate].
    destruct (DataUrl.hasLineTerminator pl) eqn:Hl; [discriminate|].
    intros H; injection H as <- <-. subst.
    repeat split; try assumption; now apply truthyString_nonempty.
  - intros (-> & Hm & Hns & Hp & Hl).
    replace (DataUrl.stripPrefix "data:" ("data:" ++ mime ++ ";base64," ++ payload))
      with (Some (mime ++ ";base64," ++ payload)) by (symmetry; now apply stripPrefix_spec).
    change (mime ++ ";base64," ++ payload) with (mime ++ String ";" ("base64," ++ payload)).
    rewrite (spanNoSemicolon_append _ _ Hns).
    apply truthyString_nonempty in Hm, Hp. rewrite Hm. simpl negb. cbv iota.
    replace (DataUrl.stripPrefix ";base64," (String ";" ("base64," ++ payload)))
      with (Some payload) by (symmetry; now apply stripPrefix_spec).
    now rewrite Hp, Hl.
Qed.

(** A match never has an empty payload, so [if (!data)] fires only when the
    pattern does not match. *)
Lemma extractDataFromBase64Url_data (url : string) (b : Base64Data) :
  extractDataFromBase64Url url = Some b -> Js.truthyString (b64_data b) = true.
Proof.
  destruct b as [mime payload]. intros H.
  apply extractDataFromBase64Url_spec in H as (_ & _ & _ & Hp & _).
  now apply truthyString_nonempty.
Qed.

(** The pattern on a few inputs: a match, an empty type, an empty payload, a
    parameter between the type and [;base64,], a payload broken by a line
    feed. *)
Example extract_png :
  extractDataFromBase64Url "data:image/png;base64,AAAA"
  = Some (mkBase64Data "image/png" "AAAA").
Proof. reflexivity. Qed.

Example extract_rejects :
  extractDataFromBase64Url "data:;base64,AAAA" = None
  /\ extractDataFromBase64Url "data:image/png;base64," = None
  /\ extractDataFromBase64Url "data:image/png;charset=utf-8;base64,AAAA" = None
  /\ extractDataFromBase64Url
       ("data:image/png;base64,AA" ++ String (ascii_of_N 10) "AA") = None
  /\ extractDataFromBase64Url "https://example.com/cat.png" = None.
Proof. repeat split. Qed.

(** ** Role Mapper *)

(** C5.  The Role Mapper sends [user] to [user] and [model] to [assistant];
    it sends [tool] to [assistant] when the hint is [tool_use] and to [user]
    for every other hint, the absent one included; every other role makes it
    throw. *)
Theorem toAnthropicRole_contract :
  (forall hint, toAnthropicRole user hint = Ok role_user)
  /\ (forall hint, toAnthropicRole model hint = Ok role_assistant)
  /\ toAnthropicRole tool (Some type_tool_use) = Ok role_assistant
  /\ toAnthropicRole tool (Some type_tool_result) = Ok role_user
  /\ toAnthropicRole tool None = Ok role_user
  /\ (forall hint, toAnthropicRole tool hint = Ok role_assistant
                   <-> hint = Some type_tool_use)
  /\ (forall hint, toAnthropicRole tool hint = Ok role_user
                   <-> hint <> Some type_tool_use)
  /\ (forall r hint, r <> user -> r <> model -> r <> tool ->
                     toAnthropicRole r hint = Err (RoleDoesNotMap r)).
Proof.
  repeat split; try reflexivity.
  - destruct hint as [[]|]; simpl; congruence.
  - now intros ->.
  - destruct hint as [[]|]; simpl; congruence.
  - destruct hint as [[]|]; simpl; congruence.
  - intros [] hint Hu Hm Ht; simpl; congruence.
Qed.

(** ** Content Block Converters *)

Lemma toAnthropicMessageContent_text (p : Part) (s : string) :
  text p = Some s -> s <> "" ->
  toAnthropicMessageContent p = Ok (TextBlock (Some s)).
Proof.
  intros Ht Hs. unfold toAnthropicMessageContent. rewrite Ht. simpl.
  apply truthyString_nonempty in Hs. now rewrite Hs.
Qed.

Lemma toAnthropicMessageContent_media_ok (m : Media) (b : Base64Data) :
  extractDataFromBase64Url (url m) = Some b ->
  toAnthropicMessageContent (mediaPart m)
  = Ok (ImageBlock (b64_data b)
          (JStr match contentType m with
                | Some explicit => explicit
                | None => b64_contentType b
                end)).
Proof.
  intros H. unfold toAnthropicMessageContent. simpl. rewrite H. simpl.
  now rewrite (extractDataFromBase64Url_data _ _ H).
Qed.

Lemma toAnthropicMessageContent_media_err (m : Media) :
  extractDataFromBase64Url (url m) = None ->
  toAnthropicMessageContent (mediaPart m) = Err (InvalidPartMedia m).
Proof.
  intros H. unfold toAnthropicMessageContent. simpl. now rewrite H.
Qed.

(** The tool-response converter never throws on a part that holds a tool
    response. *)
Lemma toAnthropicToolResponseContent_total (p : Part) (r : ToolResponse) :
  toolResponse p = Some r -> exists c, toAnthropicToolResponseContent p = Ok c.
Proof.
  intros H. unfold toAnthropicToolResponseContent. rewrite H.
  destruct (match mediaUrl (res_output r), res_output r with
            | Some u, _ => extractDataFromBase64Url u
            | None, JStr s => extractDataFromBase64Url s
            | None, _ => None
            end); eexists; reflexivity.
Qed.

(** The conversion reads nothing of a part below its first truthy tag. *)
Lemma toAnthropicMessageContent_topTagOnly (p : Part) :
  text p <> Some "" ->
  toAnthropicMessageContent p = toAnthropicMessageContent (topTagOnly p).
Proof.
  intros Hne. destruct p as [[s|] [m|] [rq|] [rs|]]; try reflexivity;
    destruct s as [|c s]; try reflexivity; now elim Hne.
Qed.

(** A part with one tag set converts when the tag is not an empty text and
    not a media outside the data-URL pattern. *)
Lemma single_tag_converts (p : Part) :
  tagCount p = 1 ->
  text p <> Some "" ->
  (forall m, media p = Some m -> extractDataFromBase64Url (url m) <> None) ->
  exists b, toAnthropicMessageContent p = Ok b.
Proof.
  intros Hone Hne Hm.
  destruct p as [[s|] [m|] [rq|] [rs|]]; try discriminate Hone; simpl in Hne.
  - exists (TextBlock (Some s)).
    apply toAnthropicMessageContent_text; [reflexivity|congruence].
  - destruct (extractDataFromBase64Url (url m)) as [b|] eqn:Hb.
    + eexists. exact (toAnthropicMessageContent_media_ok m b Hb).
    + now elim (Hm m eq_refl).
  - eexists. reflexivity.
  - destruct (toAnthropicToolResponseContent_total
                (mkPart None None None (Some rs)) rs eq_refl) as [c Hc].
    exists (ToolResultBlock (res_ref rs) [c]).
    unfold toAnthropicMessageContent.
    cbn [text media toolRequest toolResponse Js.truthyOptString].
    now rewrite Hc.
Qed.

(** C3, as amended.  A part with exactly one tag set converts to a block when
    that tag is a non-empty text, a tool request, a tool response, or a media
    whose url matches the data-URL pattern; a media whose url does not match
    makes the conversion throw. *)
Theorem toAnthropicMessageContent_one_tag (p : Part) :
  tagCount p = 1 ->
  text p <> Some "" ->
  ((forall m, media p = Some m -> extractDataFromBase64Url (url m) <> None) ->
   exists b, toAnthropicMessageContent p = Ok b)
  /\ (forall m, media p = Some m -> extractDataFromBase64Url (url m) = None ->
      toAnthropicMessageContent p = Err (InvalidPartMedia m)).
Proof.
  intros Hone Hne. split.
  - now apply single_tag_converts.
  - intros m Hm Hx.
    destruct p as [[s|] [m'|] [rq|] [rs|]]; try discriminate Hone; try discriminate Hm.
    injection Hm as ->. now apply toAnthropicMessageContent_media_err.
Qed.

Lemma toAnthropicMessageContent_one_tag_witness :
  (exists b, toAnthropicMessageContent (mediaPart Sample.inlineMedia) = Ok b)
  /\ toAnthropicMessageContent (mediaPart Sample.remoteMedia)
     = Err (InvalidPartMedia Sample.remoteMedia).
Proof.
  split.
  - apply (toAnthropicMessageContent_one_tag (mediaPart Sample.inlineMedia) eq_refl).
    + discriminate.
    + intros m [= <-]. discriminate.
  - apply (toAnthropicMessageContent_one_tag (mediaPart Sample.remoteMedia) eq_refl).
    + discriminate.
    + reflexivity.
    + reflexivity.
Defined.

(** C3, as stated, fails: a part whose only tag is a media with a remote url
    makes the conversion throw. *)
Lemma toAnthropicMessageContent_not_total :
  tagCount (mediaPart Sample.remoteMedia) = 1
  /\ toAnthropicMessageContent (mediaPart Sample.remoteMedia)
     = Err (InvalidPartMedia Sample.remoteMedia).
Proof. split; reflexivity. Qed.

(** C4, as amended.  A part whose only tag is a tool request converts to a
    [tool_use] block whose id is the request's ref, with the same name and
    input; an absent ref raises no error and leaves the id undefined. *)
Theorem toAnthropicMessageContent_toolRequest (r : ToolRequest) :
  toAnthropicMessageContent (toolRequestPart r)
  = Ok (ToolUseBlock (req_ref r) (req_name r) (req_input r)).
Proof. reflexivity. Qed.

(** C4, as stated, fails: a tool request without ref converts without error. *)
Lemma toAnthropicMessageContent_toolRequest_without_ref :
  req_ref Sample.requestWithoutRef = None
  /\ toAnthropicMessageContent (toolRequestPart Sample.requestWithoutRef)
     = Ok (ToolUseBlock None "weather" (JObj [("city", JStr "Paris")])).
Proof. split; reflexivity. Qed.

(** Outbound then inbound conversion gives back a part whose only tag is a
    non-empty text. *)
Lemma round_trip_text (s : string) :
  s <> "" ->
  (b <- toAnthropicMessageContent (textPart s) ;; Ok (fromAnthropicContentBlock b))
  = Ok (textPart s).
Proof.
  intros Hs. now rewrite (toAnthropicMessageContent_text (textPart s) s eq_refl Hs).
Qed.

(** Outbound then inbound conversion gives back a part whose only tag is a
    tool request, with or without ref. *)
Lemma round_trip_toolRequest (r : ToolRequest) :
  (b <- toAnthropicMessageContent (toolRequestPart r) ;; Ok (fromAnthropicContentBlock b))
  = Ok (toolRequestPart r).
Proof. now destruct r. Qed.

(** C8 at the empty text.  The part whose only tag is the empty text does not
    round-trip: outbound conversion takes its text for unset and throws. *)
Theorem round_trip_empty_text_throws :
  tagCount (textPart "") = 1
  /\ (b <- toAnthropicMessageContent (textPart "") ;; Ok (fromAnthropicContentBlock b))
     = Err (UnsupportedPartFields (textPart "")).
Proof. split; reflexivity. Qed.

(** C9, as amended.  A part with more than one tag set, its text not empty,
    converts as the part reduced to its first set tag in the order text,
    media, toolRequest, toolResponse; no error is raised unless that tag is a
    media whose url does not match the data-URL pattern. *)
Theorem toAnthropicMessageContent_priority (p : Part) :
  1 < tagCount p ->
  text p <> Some "" ->
  toAnthropicMessageContent p = toAnthropicMessageContent (topTagOnly p)
  /\ tagCount (topTagOnly p) = 1
  /\ ((forall m, media (topTagOnly p) = Some m ->
                 extractDataFromBase64Url (url m) <> None) ->
      exists b, toAnthropicMessageContent p = Ok b).
Proof.
  intros Hmany Hne.
  assert (Hone : tagCount (topTagOnly p) = 1).
  { destruct p as [[s|] [m|] [rq|] [rs|]]; try reflexivity.
    unfold tagCount in Hmany; simpl in Hmany; lia. }
  assert (Hne' : text (topTagOnly p) <> Some "").
  { destruct p as [[s|] [m|] [rq|] [rs|]]; simpl in *; congruence. }
  rewrite (toAnthropicMessageContent_topTagOnly p Hne).
  repeat split; [assumption|].
  now apply single_tag_converts.
Qed.

Lemma toAnthropicMessageContent_priority_witness :
  toAnthropicMessageContent Sample.inlineMediaAndRequest
  = toAnthropicMessageContent (mediaPart Sample.inlineMedia)
  /\ exists b, toAnthropicMessageContent Sample.inlineMediaAndRequest = Ok b.
Proof.
  assert (Hmany : 1 < tagCount Sample.inlineMediaAndRequest) by (vm_compute; lia).
  assert (Hne : text Sample.inlineMediaAndRequest <> Some "") by discriminate.
  destruct (toAnthropicMessageContent_priority Sample.inlineMediaAndRequest Hmany Hne)
    as (Heq & _ & Hok).
  split; [exact Heq|].
  apply Hok. intros m [= <-]. discriminate.
Defined.

(** C9, as stated, fails: a part with a remote media and a tool request has
    two tags set and makes the conversion throw. *)
Lemma toAnthropicMessageContent_many_tags_throws :
  tagCount Sample.remoteMediaAndRequest = 2
  /\ toAnthropicMessageContent Sample.remoteMediaAndRequest
     = Err (InvalidPartMedia Sample.remoteMedia).
Proof. split; reflexivity. Qed.

(** ** Tool-response sub-converter *)

Lemma distinct_NoDup (keys : list string) : distinct keys = true -> NoDup keys.
Proof.
  induction keys as [|k keys IH]; simpl; intros H; [constructor|].
  apply andb_prop in H as [Hk Hrest]. constructor; [|now apply IH].
  intros Hin. apply negb_true_iff in Hk.
  assert (existsb (String.eqb k) keys = true); [|congruence].
  apply existsb_exists. exists k. split; [exact Hin|apply String.eqb_refl].
Qed.

Lemma getField_Some_In (key : string) (fields : list (string * JsVal)) (v : JsVal) :
  Js.getField key fields = Some v -> In (key, v) fields.
Proof.
  induction fields as [|[k w] fields IH]; simpl; [discriminate|].
  destruct (String.eqb_spec k key) as [->|Hne].
  - intros [= ->]. now left.
  - intros H. right. now apply IH.
Qed.

Lemma getField_In (key : string) (fields : list (string * JsVal)) (v : JsVal) :
  NoDup (map fst fields) -> In (key, v) fields -> Js.getField key fields = Some v.
Proof.
  induction fields as [|[k w] fields IH]; simpl; [tauto|].
  intros Hnd. inversion Hnd as [|? ? Hnotin Hnd']; subst.
  intros [[= -> ->]|Hin].
  - now rewrite String.eqb_refl.
  - destruct (String.eqb_spec k key) as [->|Hne]; [|now apply IH].
    elim Hnotin. change key with (fst (key, v)). now apply in_map.
Qed.

Lemma wellFormed_fields (fields : list (string * JsVal)) :
  wellFormed (JObj fields) = true -> NoDup (map fst fields).
Proof.
  simpl. intros H. apply andb_prop in H as [H _]. now apply distinct_NoDup.
Qed.

(** The test [isMediaObject] accepts exactly the media objects. *)
Lemma mediaUrl_spec (output : JsVal) (u : string) :
  wellFormed output = true ->
  (mediaUrl output = Some u <-> MediaObject output u).
Proof.
  intros Hwf. split.
  - destruct output as [| | | | |items|fields]; try discriminate. simpl.
    destruct (Js.getField "url" fields) as [[| | | |s| |]|] eqn:Hg; try discriminate.
    intros [= <-]. constructor. now apply getField_Some_In.
  - intros H. revert Hwf. destruct H as [fields u' Hin]. intros Hwf. simpl.
    now rewrite (getField_In "url" fields (JStr u') (wellFormed_fields _ Hwf) Hin).
Qed.

(** The string the converter hands to the pattern is the one the output
    offers. *)
Lemma base64Data_source (output : JsVal) (u : string) :
  wellFormed output = true ->
  DataUrlSource output u ->
  match mediaUrl output, output with
  | Some u', _ => extractDataFromBase64Url u'
  | None, JStr s => extractDataFromBase64Url s
  | None, _ => None
  end = extractDataFromBase64Url u.
Proof.
  intros Hwf Hs. revert Hwf. destruct Hs as [o u Hm|s]; intros Hwf.
  - apply (mediaUrl_spec _ _ Hwf) in Hm. now rewrite Hm.
  - reflexivity.
Qed.

Lemma base64Data_no_source (output : JsVal) :
  wellFormed output = true ->
  (forall u, DataUrlSource output u -> extractDataFromBase64Url u = None) ->
  match mediaUrl output, output with
  | Some u', _ => extractDataFromBase64Url u'
  | None, JStr s => extractDataFromBase64Url s
  | None, _ => None
  end = None.
Proof.
  intros Hwf Hnone. destruct (mediaUrl output) as [u|] eqn:Hm.
  - apply Hnone. constructor. now apply (mediaUrl_spec _ _ Hwf).
  - destruct output; try reflexivity. apply Hnone. apply source_string.
Qed.

(** The property [contentType] that [??] keeps is the explicit content type
    of the output. *)
Lemma contentType_spec (output ct : JsVal) :
  wellFormed output = true ->
  (ExplicitContentType output ct
   <-> Js.prop output "contentType" = ct /\ Js.nullish ct = false).
Proof.
  intros Hwf. split.
  - intros H. revert Hwf. destruct H as [fields ct' Hin Hu Hn]. intros Hwf. simpl.
    rewrite (getField_In "contentType" fields ct' (wellFormed_fields _ Hwf) Hin).
    split; [reflexivity|]. destruct ct'; try reflexivity; congruence.
  - intros [Hp Hn]. destruct output as [| | | | |items|fields];
      simpl in Hp; subst ct; try discriminate Hn.
    destruct (Js.getField "contentType" fields) as [x|] eqn:Hg; [|discriminate Hn].
    constructor.
    + now apply getField_Some_In.
    + intros ->. discriminate Hn.
    + intros ->. discriminate Hn.
Qed.

(** C6.  On a part with a tool response, the sub-converter emits an image
    block exactly when the url of a media-object output, or a string output
    itself, matches the data-URL pattern; the block carries the payload, and
    its media type is the explicit contentType of the output when it has one,
    else the type the pattern captured.  In every other case it emits a text
    block: the string itself for a string output, else the JSON text of the
    output. *)
Theorem toAnthropicToolResponseContent_spec (part : Part) (response : ToolResponse) :
  toolResponse part = Some response ->
  wellFormed (res_output response) = true ->
  (forall u mime payload,
      DataUrlSource (res_output response) u ->
      MatchesDataUrl u mime payload ->
      exists media_type,
        toAnthropicToolResponseContent part = Ok (ImageBlock payload media_type)
        /\ (forall ct, ExplicitContentType (res_output response) ct -> media_type = ct)
        /\ ((forall ct, ~ ExplicitContentType (res_output response) ct) ->
            media_type = JStr mime))
  /\ ((forall u mime payload,
          DataUrlSource (res_output response) u -> ~ MatchesDataUrl u mime payload) ->
      (forall s, res_output response = JStr s ->
                 toAnthropicToolResponseContent part = Ok (TextBlock (Some s)))
      /\ ((forall s, res_output response <> JStr s) ->
          toAnthropicToolResponseContent part
          = Ok (TextBlock (Js.stringify (res_output response)))))
  /\ (forall c,
         toAnthropicToolResponseContent part = Ok c ->
         (blockType c = type_image
          <-> exists u mime payload,
                DataUrlSource (res_output response) u
                /\ MatchesDataUrl u mime payload)
         /\ (blockType c <> type_image -> blockType c = type_text)).
Proof.
  intros Hr Hwf. unfold toAnthropicToolResponseContent. rewrite Hr.
  set (output := res_output response) in *.
  assert (Himage : forall u mime payload,
             DataUrlSource output u -> MatchesDataUrl u mime payload ->
             match mediaUrl output, output with
             | Some u', _ => extractDataFromBase64Url u'
             | None, JStr s => extractDataFromBase64Url s
             | None, _ => None
             end = Some (mkBase64Data mime payload)).
  { intros u mime payload Hs Hm. rewrite (base64Data_source output u Hwf Hs).
    now apply extractDataFromBase64Url_spec. }
  assert (Htext : (forall u mime payload,
                      DataUrlSource output u -> ~ MatchesDataUrl u mime payload) ->
                  match mediaUrl output, output with
                  | Some u', _ => extractDataFromBase64Url u'
                  | None, JStr s => extractDataFromBase64Url s
                  | None, _ => None
                  end = None).
  { intros Hnone. apply (base64Data_no_source output Hwf). intros u Hs.
    destruct (extractDataFromBase64Url u) as [[mime payload]|] eqn:Hx; [|reflexivity].
    apply extractDataFromBase64Url_spec in Hx. now elim (Hnone u mime payload Hs). }
  split; [|split].
  - intros u mime payload Hs Hm. rewrite (Himage u mime payload Hs Hm). simpl.
    eexists. split; [reflexivity|]. unfold Js.coalesce. split.
    + intros ct Hct. apply (contentType_spec output ct Hwf) in Hct as [-> Hn].
      now rewrite Hn.
    + intros Hno. destruct (Js.nullish (Js.prop output "contentType")) eqn:Hn;
        [reflexivity|].
      elim (Hno (Js.prop output "contentType")).
      apply (contentType_spec output _ Hwf). now split.
  - intros Hnone. rewrite (Htext Hnone). split.
    + intros s ->. reflexivity.
    + intros Hs. destruct output; try reflexivity. now elim (Hs s).
  - intros c.
    destruct (match mediaUrl output, output with
              | Some u', _ => extractDataFromBase64Url u'
              | None, JStr s => extractDataFromBase64Url s
              | None, _ => None
              end) as [[mime payload]|] eqn:Hb.
    + intros [= <-]. simpl. split; [|congruence].
      split; [|reflexivity]. intros _.
      destruct (mediaUrl output) as [u|] eqn:Hu.
      * exists u, mime, payload. split.
        -- constructor. now apply (mediaUrl_spec _ _ Hwf).
        -- now apply extractDataFromBase64Url_spec.
      * destruct output; try discriminate Hb.
        exists s, mime, payload. split; [apply source_string|].
        now apply extractDataFromBase64Url_spec.
    + intros [= <-]. simpl. split; [|reflexivity].
      split; [discriminate|]. intros (u & mime & payload & Hs & Hm).
      discriminate (Himage u mime payload Hs Hm).
Qed.

Lemma toAnthropicToolResponseContent_spec_witness :
  toAnthropicToolResponseContent
    (toolResponsePart
       (mkToolResponse (Some "call_1") "lookup"
          (JObj [("foo", JNum 1); ("tags", JArr [JStr "a"; JUndefined; JNull])])))
  = Ok (TextBlock
          (Some ("{" ++ dq ++ "foo" ++ dq ++ ":1," ++ dq ++ "tags" ++ dq ++ ":["
                     ++ dq ++ "a" ++ dq ++ ",null,null]}")))
  /\ toAnthropicToolResponseContent
       (toolResponsePart (mkToolResponse (Some "call_1") "lookup" (JStr "sunny")))
     = Ok (TextBlock (Some "sunny"))
  /\ (exists media_type,
         toAnthropicToolResponseContent
           (toolResponsePart
              (mkToolResponse (Some "call_1") "render"
                 (JObj [("contentType", JStr "image/webp");
                        ("url", JStr "data:image/png;base64,AAAA")])))
         = Ok (ImageBlock "AAAA" media_type)
         /\ media_type = JStr "image/webp")
  /\ (exists media_type,
         toAnthropicToolResponseContent
           (toolResponsePart
              (mkToolResponse (Some "call_1") "render"
                 (JStr "data:image/png;base64,AAAA")))
         = Ok (ImageBlock "AAAA" media_type)
         /\ media_type = JStr "image/png").
Proof.
  assert (Hpng : MatchesDataUrl "data:image/png;base64,AAAA" "image/png" "AAAA")
    by (repeat split; discriminate).
  split; [|split; [|split]].
  - match goal with
    | |- toAnthropicToolResponseContent (toolResponsePart ?r) = _ =>
        refine (proj2 (proj1 (proj2 (toAnthropicToolResponseContent_spec
                                       (toolResponsePart r) r eq_refl eq_refl)) _) _)
    end.
    + intros u mime payload Hs. inversion Hs as [o u' Hm|]; subst.
      inversion Hm as [fields u' Hin]; subst.
      destruct Hin as [Hin|[Hin|[]]]; discriminate Hin.
    + intros s. discriminate.
  - match goal with
    | |- toAnthropicToolResponseContent (toolResponsePart ?r) = _ =>
        refine (proj1 (proj1 (proj2 (toAnthropicToolResponseContent_spec
                                       (toolResponsePart r) r eq_refl eq_refl)) _)
                  _ eq_refl)
    end.
    intros u mime payload Hs. inversion Hs as [o u' Hm|]; subst.
    + inversion Hm.
    + intros (Hu & _). discriminate Hu.
  - destruct (proj1 (toAnthropicToolResponseContent_spec
                       (toolResponsePart
                          (mkToolResponse (Some "call_1") "render"
                             (JObj [("contentType", JStr "image/webp");
                                    ("url", JStr "data:image/png;base64,AAAA")])))
                       _ eq_refl eq_refl)
                "data:image/png;base64,AAAA" "image/png" "AAAA")
      as (mt & Hres & Hexp & _).
    + constructor. constructor. right. now left.
    + exact Hpng.
    + exists mt. split; [exact Hres|]. apply Hexp. constructor.
      * now left.
      * discriminate.
      * discriminate.
  - destruct (proj1 (toAnthropicToolResponseContent_spec
                       (toolResponsePart
                          (mkToolResponse (Some "call_1") "render"
                             (JStr "data:image/png;base64,AAAA")))
                       _ eq_refl eq_refl)
                "data:image/png;base64,AAAA" "image/png" "AAAA")
      as (mt & Hres & _ & Hreg).
    + apply source_string.
    + exact Hpng.
    + exists mt. split; [exact Hres|]. apply Hreg. intros ct Hct. inversion Hct.
Defined.

(** The image example of the specification: a media object with an inline
    PNG and an explicit content type. *)
Lemma toAnthropicToolResponseContent_png :
  toAnthropicToolResponseContent
    (toolResponsePart (mkToolResponse (Some "call_1") "render" Sample.pngOutput))
  = Ok (ImageBlock "AAAA" (JStr "image/png")).
Proof. reflexivity. Qed.

(** ** Message Sequence Converter *)

(** The loop pushes, in order, the conversion of each message, and stops at
    the first one that throws. *)
Lemma convertLoop_mapResult (l : list MessageData) (acc : list MessageParam) :
  convertLoop l acc
  = (out <- mapResult convertMessage l ;; Ok (acc ++ out)%list).
Proof.
  revert acc. induction l as [|m l IH]; intros acc; simpl.
  - now rewrite app_nil_r.
  - destruct (convertMessage m) as [pm|e]; simpl; [|reflexivity].
    rewrite IH. destruct (mapResult convertMessage l) as [out|e]; simpl.
    + now rewrite <- app_assoc.
    + reflexivity.
Qed.

Lemma mapResult_nth_error {A B : Type} (f : A -> Result B) (l : list A)
    (out : list B) (i : nat) (x : A) :
  mapResult f l = Ok out ->
  nth_error l i = Some x ->
  exists y, nth_error out i = Some y /\ f x = Ok y.
Proof.
  revert out i. induction l as [|a l IH]; intros out i Hmap Hnth.
  - destruct i; discriminate Hnth.
  - simpl in Hmap. destruct (f a) as [y|e] eqn:Hfa; [|discriminate Hmap].
    simpl in Hmap. destruct (mapResult f l) as [ys|e] eqn:Hl; [|discriminate Hmap].
    injection Hmap as <-. destruct i as [|i]; simpl in *.
    + injection Hnth as <-. now exists y.
    + now apply (IH ys i eq_refl).
Qed.

(** The converter returns exactly when the loop does, with the system string
    computed beforehand. *)
Lemma toAnthropicMessages_inv (msgs : list MessageData) (r : AnthropicMessages) :
  toAnthropicMessages msgs = Ok r ->
  am_system r = systemOf msgs
  /\ mapResult convertMessage (messagesToIterate msgs) = Ok (am_messages r).
Proof.
  unfold toAnthropicMessages. rewrite convertLoop_mapResult.
  destruct (mapResult convertMessage (messagesToIterate msgs)) as [out|e];
    simpl; [|discriminate].
  intros [= <-]. split; reflexivity.
Qed.

(** A message of role [tool] takes its role from the first [tool_use] or
    [tool_result] block of its converted content; the Role Mapper never
    throws on it. *)
Lemma convertMessage_tool (m : MessageData) :
  role m = tool ->
  convertMessage m
  = (blocks <- mapResult toAnthropicMessageContent (content m) ;;
     Ok (mkMessageParam
           match firstToolBlockType blocks with
           | Some type_tool_use => role_assistant
           | _ => role_user
           end blocks)).
Proof.
  intros Hr. unfold convertMessage. rewrite Hr.
  destruct (mapResult toAnthropicMessageContent (content m)); reflexivity.
Qed.

Lemma firstToolBlockType_containsToolUse (blocks : list ContentBlock) :
  firstToolBlockType blocks = Some type_tool_use -> containsToolUse blocks = true.
Proof.
  unfold firstToolBlockType, containsToolUse.
  induction blocks as [|b blocks IH]; simpl; [discriminate|].
  unfold isToolBlock. destruct (blockType b) eqn:Hb; simpl; try assumption.
  - reflexivity.
  - rewrite Hb. discriminate.
Qed.

(** C2, as amended.  For every message of role [tool] the converter
    processes, the emitted message carries the converted content, and its
    role is [assistant] exactly when the first [tool_use] or [tool_result]
    block of that content is a [tool_use] block, and [user] otherwise; an
    [assistant] role therefore implies that the content contains a [tool_use]
    block. *)
Theorem tool_message_role (msgs : list MessageData) (r : AnthropicMessages)
    (i : nat) (m : MessageData) :
  toAnthropicMessages msgs = Ok r ->
  nth_error (messagesToIterate msgs) i = Some m ->
  role m = tool ->
  exists pm,
    nth_error (am_messages r) i = Some pm
    /\ mapResult toAnthropicMessageContent (content m) = Ok (mp_content pm)
    /\ (mp_role pm = role_assistant
        <-> firstToolBlockType (mp_content pm) = Some type_tool_use)
    /\ (mp_role pm = role_user
        <-> firstToolBlockType (mp_content pm) <> Some type_tool_use)
    /\ (mp_role pm = role_assistant -> containsToolUse (mp_content pm) = true).
Proof.
  intros Hok Hnth Hrole.
  apply toAnthropicMessages_inv in Hok as [_ Hmap].
  destruct (mapResult_nth_error _ _ _ _ _ Hmap Hnth) as (pm & Hpm & Hconv).
  exists pm. split; [exact Hpm|].
  rewrite (convertMessage_tool m Hrole) in Hconv.
  destruct (mapResult toAnthropicMessageContent (content m)) as [blocks|e];
    [|discriminate Hconv].
  simpl in Hconv. injection Hconv as <-. simpl.
  split; [reflexivity|].
  assert (Hiff : (match firstToolBlockType blocks with
                  | Some type_tool_use => role_assistant
                  | _ => role_user
                  end = role_assistant)
                 <-> firstToolBlockType blocks = Some type_tool_use).
  { destruct (firstToolBlockType blocks) as [[]|]; split; congruence. }
  split; [exact Hiff|]. split.
  - destruct (firstToolBlockType blocks) as [[]|]; split; congruence.
  - intros H. apply firstToolBlockType_containsToolUse. now apply Hiff.
Qed.

Lemma tool_message_role_witness :
  exists pm,
    nth_error [mkMessageParam role_user
                 [ToolResultBlock (Some "call_1")
                    [TextBlock (Some (String "{" (String Js.dquote
                                        ("foo" ++ String Js.dquote ":1}"))))];
                  ToolUseBlock (Some "call_2") "weather"
                    (JObj [("city", JStr "Paris")])]] 0 = Some pm
    /\ mapResult toAnthropicMessageContent (content Sample.resultThenUse)
       = Ok (mp_content pm)
    /\ (mp_role pm = role_assistant
        <-> firstToolBlockType (mp_content pm) = Some type_tool_use)
    /\ (mp_role pm = role_user
        <-> firstToolBlockType (mp_content pm) <> Some type_tool_use)
    /\ (mp_role pm = role_assistant -> containsToolUse (mp_content pm) = true).
Proof.
  exact (tool_message_role [Sample.resultThenUse] _ 0 Sample.resultThenUse
           eq_refl eq_refl eq_refl).
Defined.

(** C2, as stated, fails: a tool message whose content converts to a
    [tool_result] block followed by a [tool_use] block contains a [tool_use]
    block and is emitted with the [user] role. *)
Lemma tool_message_with_tool_use_is_user :
  exists pm,
    toAnthropicMessages [Sample.resultThenUse] = Ok (mkAnthropicMessages None [pm])
    /\ role Sample.resultThenUse = tool
    /\ containsToolUse (mp_content pm) = true
    /\ mp_role pm = role_user.
Proof. eexists. repeat split. Qed.

(** The example of the specification: a system message then a user
    message. *)
Lemma toAnthropicMessages_example :
  toAnthropicMessages Sample.systemThenUser
  = Ok (mkAnthropicMessages (Some "S")
          [mkMessageParam role_user [TextBlock (Some "hi")]]).
Proof. reflexivity. Qed.

(** A first message of role [system] whose first part is a non-empty text is
    extracted and excluded. *)
Lemma toAnthropicMessages_system (first : MessageData) (rest : list MessageData)
    (p : Part) (ps : list Part) (s : string) :
  role first = system -> content first = p :: ps -> text p = Some s -> s <> "" ->
  toAnthropicMessages (first :: rest)
  = (out <- mapResult convertMessage rest ;; Ok (mkAnthropicMessages (Some s) out)).
Proof.
  intros Hr Hc Ht Hs. unfold toAnthropicMessages, messagesToIterate, systemOf.
  rewrite Hr, Hc, Ht. simpl. apply truthyString_nonempty in Hs. rewrite Hs.
  rewrite convertLoop_mapResult. simpl.
  destruct (mapResult convertMessage rest); reflexivity.
Qed.

(** A first message of another role is neither extracted nor excluded. *)
Lemma toAnthropicMessages_no_system (first : MessageData) (rest : list MessageData) :
  role first <> system ->
  toAnthropicMessages (first :: rest)
  = (out <- mapResult convertMessage (first :: rest) ;;
     Ok (mkAnthropicMessages None out)).
Proof.
  intros Hr. unfold toAnthropicMessages, messagesToIterate, systemOf.
  destruct (role first) eqn:Hrole; [now elim Hr| | |];
    cbn [Js.truthyOptString]; rewrite convertLoop_mapResult;
    destruct (mapResult convertMessage (first :: rest)); reflexivity.
Qed.

(** Whenever the converter returns, the first message was extracted and
    excluded if and only if its role is [system]. *)
Lemma toAnthropicMessages_returns (first : MessageData) (rest : list MessageData)
    (r : AnthropicMessages) :
  toAnthropicMessages (first :: rest) = Ok r ->
  (role first = system
   <-> exists s, am_system r = Some s /\ s <> ""
                 /\ mapResult convertMessage rest = Ok (am_messages r)).
Proof.
  intros Hok. apply toAnthropicMessages_inv in Hok as [Hsys Hmap].
  unfold messagesToIterate in Hmap. split.
  - intros Hr. destruct (systemOf (first :: rest)) as [s|] eqn:Hs.
    + destruct s as [|c s].
      * simpl in Hmap. unfold convertMessage in Hmap. rewrite Hr in Hmap.
        destruct (mapResult toAnthropicMessageContent (content first));
          discriminate Hmap.
      * exists (String c s). repeat split; [assumption|discriminate|exact Hmap].
    + simpl in Hmap. unfold convertMessage in Hmap. rewrite Hr in Hmap.
      destruct (mapResult toAnthropicMessageContent (content first));
        discriminate Hmap.
  - intros (s & Hs & _ & _). rewrite Hsys in Hs. simpl in Hs.
    destruct (role first); try discriminate Hs. reflexivity.
Qed.

(** C1 at an empty system text.  The first message has role [system] and a
    single text part, yet it is not excluded: the converter goes on to
    convert it and throws. *)
Theorem toAnthropicMessages_empty_system_text :
  option_map role (hd_error Sample.emptySystemThenUser) = Some system
  /\ messagesToIterate Sample.emptySystemThenUser = Sample.emptySystemThenUser
  /\ toAnthropicMessages Sample.emptySystemThenUser
     = Err (UnsupportedPartFields (textPart "")).
Proof. repeat split. Qed.

(** ** Request Body Builder *)

Section Strip.

Lemma filter_all {A : Type} (f : A -> bool) (l : list A) :
  (forall x, In x l -> f x = true) -> filter f l = l.
Proof.
  induction l as [|a l IH]; intros H; simpl; [reflexivity|].
  rewrite (H a (or_introl eq_refl)). f_equal. apply IH.
  intros x Hx. apply H. now right.
Qed.

Lemma get_In (key : string) (v : BodyValue) (body : Body) :
  BodyOps.get key body = Some v -> In (key, v) body.
Proof.
  induction body as [|[k w] body IH]; simpl; [discriminate|].
  destruct (String.eqb_spec k key) as [->|Hne].
  - intros [= ->]. now left.
  - intros H. right. now apply IH.
Qed.

Lemma get_None (key : string) (body : Body) :
  BodyOps.get key body = None <-> ~ In key (BodyOps.keys body).
Proof.
  induction body as [|[k w] body IH]; simpl; [tauto|].
  destruct (String.eqb_spec k key) as [->|Hne].
  - split; [discriminate|]. intros H. elim H. now left.
  - rewrite IH. tauto.
Qed.

Lemma In_unique (key : string) (v w : BodyValue) (body : Body) :
  NoDup (BodyOps.keys body) -> In (key, v) body -> In (key, w) body -> v = w.
Proof.
  induction body as [|[k x] body IH]; simpl; [tauto|].
  intros Hnd. inversion Hnd as [|? ? Hnotin Hnd']; subst.
  intros [[= -> ->]|Hv] [[= <-]|Hw]; try reflexivity.
  - elim Hnotin. change key with (fst (key, w)). now apply in_map.
  - subst. elim Hnotin. change k with (fst (k, v)). now apply in_map.
  - now apply IH.
Qed.

Lemma delete_filter (key : string) (body : Body) :
  BodyOps.delete key body
  = filter (fun kv => negb (String.eqb (fst kv) key)) body.
Proof.
  induction body as [|[k w] body IH]; simpl; [reflexivity|].
  destruct (String.eqb k key); simpl; now rewrite IH.
Qed.

Lemma keys_filter_NoDup (f : string * BodyValue -> bool) (body : Body) :
  NoDup (BodyOps.keys body) -> NoDup (BodyOps.keys (filter f body)).
Proof.
  induction body as [|[k w] body IH]; simpl; intros Hnd; [constructor|].
  inversion Hnd as [|? ? Hnotin Hnd']; subst.
  destruct (f (k, w)); simpl; [|now apply IH].
  constructor; [|now apply IH].
  intros Hin. apply Hnotin. unfold BodyOps.keys in *.
  apply in_map_iff in Hin as ([k' w'] & Hk & Hin). simpl in Hk. subst k'.
  apply filter_In in Hin as [Hin _].
  change k with (fst (k, w')). now apply in_map.
Qed.

(** One turn of the loop removes the field of its key when that field is
    falsy or an empty list, and nothing else. *)
Lemma stripStep_filter (body : Body) (key : string) :
  NoDup (BodyOps.keys body) ->
  BodyOps.stripStep body key = filter (untouched key) body.
Proof.
  intros Hnd. unfold BodyOps.stripStep.
  destruct (BodyOps.get key body) as [v|] eqn:Hget.
  - apply get_In in Hget. fold (stripped v).
    destruct (stripped v) eqn:Hv.
    + rewrite delete_filter. apply filter_ext_in.
      intros [k w] Hin. unfold untouched. simpl.
      destruct (String.eqb_spec k key) as [->|Hne]; [|reflexivity].
      now rewrite (In_unique key w v body Hnd Hin Hget), Hv.
    + symmetry. apply filter_all. intros [k w] Hin. unfold untouched. simpl.
      destruct (String.eqb_spec k key) as [->|Hne]; [|reflexivity].
      now rewrite (In_unique key w v body Hnd Hin Hget), Hv.
  - symmetry. apply filter_all. intros [k w] Hin. unfold untouched. simpl.
    destruct (String.eqb_spec k key) as [->|Hne]; [|reflexivity].
    apply get_None in Hget. elim Hget.
    change key with (fst (key, w)). now apply in_map.
Qed.

Lemma fold_stripStep_filter (ks : list string) (body : Body) :
  NoDup (BodyOps.keys body) ->
  fold_left BodyOps.stripStep ks body
  = filter (fun kv => negb (existsb (String.eqb (fst kv)) ks
                            && stripped (snd kv))) body.
Proof.
  revert body. induction ks as [|k ks IH]; intros body Hnd; simpl.
  - symmetry. now apply filter_all.
  - rewrite (stripStep_filter body k Hnd).
    rewrite (IH _ (keys_filter_NoDup _ body Hnd)).
    induction body as [|[k' w] body IHb]; simpl; [reflexivity|].
    inversion Hnd as [|? ? _ Hnd']; subst.
    unfold untouched at 1 3. simpl.
    destruct (String.eqb k' k) eqn:Hk; simpl.
    + destruct (stripped w) eqn:Hw; simpl.
      * now apply IHb.
      * rewrite Hw, andb_false_r. simpl. f_equal. now apply IHb.
    + destruct (existsb (String.eqb k') ks && stripped w); simpl;
        [|f_equal]; now apply IHb.
Qed.

(** The loop as a whole keeps exactly the fields that are truthy and not an
    empty list, in their order. *)
Lemma strip_filter (body : Body) :
  NoDup (BodyOps.keys body) -> BodyOps.strip body = filter kept body.
Proof.
  intros Hnd. unfold BodyOps.strip. rewrite (fold_stripStep_filter _ _ Hnd).
  apply filter_ext_in. intros [k w] Hin. unfold kept. simpl.
  replace (existsb (String.eqb k) (BodyOps.keys body)) with true; [reflexivity|].
  symmetry. apply existsb_exists. exists k. split; [|apply String.eqb_refl].
  change k with (fst (k, w)). now apply in_map.
Qed.

End Strip.

Lemma bodyLiteral_keys (modelName : string) (modelVersion : option string)
    (converted : AnthropicMessages) (request : GenerateRequest) (stream : option bool) :
  BodyOps.keys (bodyLiteral modelName modelVersion converted request stream)
  = [ "system"; "messages"; "tools"; "max_tokens"; "model"; "top_k"; "top_p";
      "temperature"; "stop_sequences"; "metadata"; "tool_choice"; "stream" ].
Proof. reflexivity. Qed.

Lemma bodyLiteral_NoDup (modelName : string) (modelVersion : option string)
    (converted : AnthropicMessages) (request : GenerateRequest) (stream : option bool) :
  NoDup (BodyOps.keys (bodyLiteral modelName modelVersion converted request stream)).
Proof.
  rewrite bodyLiteral_keys.
  repeat (constructor; [simpl; intuition discriminate|]). constructor.
Qed.

(** The builder returns exactly when the model name resolves, the messages
    convert and no format other than text is asked for; the body is then the
    literal without its falsy and empty-list fields. *)
Lemma toAnthropicRequestBody_inv (modelName : string) (request : GenerateRequest)
    (stream : option bool) (body : Body) :
  toAnthropicRequestBody modelName request stream = Ok body
  <-> exists modelVersion converted,
        lookupModelVersion modelName = Some modelVersion
        /\ toAnthropicMessages (messages request) = Ok converted
        /\ nonTextFormat request = false
        /\ body = filter kept
                    (bodyLiteral modelName modelVersion converted request stream).
Proof.
  unfold toAnthropicRequestBody. split.
  - destruct (lookupModelVersion modelName) as [mv|]; [|discriminate].
    destruct (toAnthropicMessages (messages request)) as [cv|e]; simpl; [|discriminate].
    destruct (nonTextFormat request); [discriminate|].
    intros [= <-]. exists mv, cv. repeat split.
    apply strip_filter, bodyLiteral_NoDup.
  - intros (mv & cv & -> & -> & -> & ->). simpl.
    now rewrite (strip_filter _ (bodyLiteral_NoDup modelName mv cv request stream)).
Qed.

(** What the loop tests, [!v], holds exactly of the falsy values. *)
Lemma truthy_Falsy (v : BodyValue) : BodyOps.truthy v = false <-> Falsy v.
Proof.
  split.
  - destruct v as [|s|n|b| | | | |]; simpl; try discriminate.
    + intros _. constructor.
    + destruct s; [constructor|discriminate].
    + destruct n as [| |q]; simpl; try discriminate; [constructor|].
      intros H. apply negb_false_iff in H. constructor. now apply Qeq_bool_iff.
    + destruct b; [discriminate|constructor].
  - intros [| |q Hq| |]; try reflexivity.
    simpl. apply negb_false_iff. now apply Qeq_bool_iff.
Qed.

(** [Array.isArray(v) && !v.length] holds exactly of the empty lists. *)
Lemma isEmptyArray_EmptyList (v : BodyValue) :
  BodyOps.isEmptyArray v = true <-> EmptyList v.
Proof.
  split.
  - destruct v as [| | | |[|]|[|]|[|]| |]; simpl; try discriminate; constructor.
  - intros []; reflexivity.
Qed.

(** A key whose value in the literal is falsy or an empty list is not a key
    of the filtered body. *)
Lemma kept_absent (key : string) (v : BodyValue) (literal : Body) :
  NoDup (BodyOps.keys literal) ->
  In (key, v) literal ->
  Falsy v \/ EmptyList v ->
  ~ In key (BodyOps.keys (filter kept literal)).
Proof.
  intros Hnd Hin Hv Hkey. unfold BodyOps.keys in Hkey.
  apply in_map_iff in Hkey as ([k w] & Hk & Hw). simpl in Hk. subst k.
  apply filter_In in Hw as [Hw Hkept].
  rewrite (In_unique key w v literal Hnd Hw Hin) in Hkept.
  unfold kept, stripped in Hkept. simpl in Hkept.
  apply negb_true_iff, orb_false_iff in Hkept as [Ht He].
  apply negb_false_iff in Ht. destruct Hv as [Hf|He'].
  - apply truthy_Falsy in Hf. congruence.
  - apply isEmptyArray_EmptyList in He'. congruence.
Qed.

(** C7.  No field of a body the Request Body Builder returns holds a falsy
    value (undefined, the empty string, zero, NaN, false) or an empty list.
    In particular an unset [topK] leaves the body without [top_k], an empty
    list of tools, of stop sequences or of messages leaves it without
    [tools], [stop_sequences] or [messages], and a stream flag that is false
    leaves it without [stream]. *)
Theorem toAnthropicRequestBody_strips (modelName : string) (request : GenerateRequest)
    (stream : option bool) (body : Body) :
  toAnthropicRequestBody modelName request stream = Ok body ->
  (forall key v, In (key, v) body -> ~ Falsy v /\ ~ EmptyList v)
  /\ (configField topK request = None -> ~ In "top_k" (BodyOps.keys body))
  /\ (tools request = Some [] -> ~ In "tools" (BodyOps.keys body))
  /\ (configField stopSequences request = Some [] ->
      ~ In "stop_sequences" (BodyOps.keys body))
  /\ (messages request = [] -> ~ In "messages" (BodyOps.keys body))
  /\ (stream = Some false -> ~ In "stream" (BodyOps.keys body)).
Proof.
  intros Hok. apply toAnthropicRequestBody_inv in Hok
    as (mv & cv & _ & Hcv & _ & ->).
  pose proof (bodyLiteral_NoDup modelName mv cv request stream) as Hnd.
  split; [|repeat split].
  - intros key v Hin. apply filter_In in Hin as [_ Hkeep].
    unfold kept, stripped in Hkeep. simpl in Hkeep.
    apply negb_true_iff, orb_false_iff in Hkeep as [Ht He].
    apply negb_false_iff in Ht. split; intros H.
    + apply truthy_Falsy in H. congruence.
    + apply isEmptyArray_EmptyList in H. congruence.
  - intros Hk. apply (kept_absent "top_k" BUndefined _ Hnd).
    + unfold bodyLiteral. rewrite Hk. simpl. tauto.
    + left. constructor.
  - intros Hk. apply (kept_absent "tools" (BTools []) _ Hnd).
    + unfold bodyLiteral. rewrite Hk. simpl. tauto.
    + right. constructor.
  - intros Hk. apply (kept_absent "stop_sequences" (BStrings []) _ Hnd).
    + unfold bodyLiteral. rewrite Hk. simpl. tauto.
    + right. constructor.
  - intros Hk. rewrite Hk in Hcv. injection Hcv as <-.
    apply (kept_absent "messages" (BMessages []) _ Hnd).
    + simpl. tauto.
    + right. constructor.
  - intros Hk. apply (kept_absent "stream" (BBoolean false) _ Hnd).
    + unfold bodyLiteral. rewrite Hk. simpl. tauto.
    + left. constructor.
Qed.

Lemma toAnthropicRequestBody_strips_witness :
  toAnthropicRequestBody "claude-3-opus"
    (mkGenerateRequest
       [mkMessageData user [textPart "hi"]]
       (Some [])
       (Some (mkConfig (Some "") (Some (Fin 0%Q)) (Some NaN) None (Some (Fin (9 # 10)%Q))
                (Some []) None None))
       None)
    (Some false)
  = Ok [ ("messages", BMessages [mkMessageParam role_user [TextBlock (Some "hi")]]);
         ("top_p", BNumber (Fin (9 # 10)%Q)) ]
  /\ (forall key v,
         In (key, v)
            [ ("messages", BMessages [mkMessageParam role_user [TextBlock (Some "hi")]]);
              ("top_p", BNumber (Fin (9 # 10)%Q)) ] ->
         ~ Falsy v /\ ~ EmptyList v)
  /\ ~ In "top_k" ["messages"; "top_p"]
  /\ ~ In "tools" ["messages"; "top_p"]
  /\ ~ In "stop_sequences" ["messages"; "top_p"]
  /\ ~ In "stream" ["messages"; "top_p"].
Proof.
  split; [reflexivity|].
  destruct (toAnthropicRequestBody_strips "claude-3-opus"
              (mkGenerateRequest
                 [mkMessageData user [textPart "hi"]]
                 (Some [])
                 (Some (mkConfig (Some "") (Some (Fin 0%Q)) (Some NaN) None
                          (Some (Fin (9 # 10)%Q)) (Some []) None None))
                 None)
              (Some false) _ eq_refl)
    as (Hall & Htopk & Htools & Hstop & _ & Hstream).
  split; [exact Hall|].
  split; [exact (Htopk eq_refl)|].
  split; [exact (Htools eq_refl)|].
  split; [exact (Hstop eq_refl)|exact (Hstream eq_refl)].
Defined.

(** C10.  When the config sets [maxOutputTokens] to 0, the body the builder
    returns has no [max_tokens] key: the default 4096 replaces only an absent
    value, and the loop then strips the falsy 0. *)
Theorem toAnthropicRequestBody_zero_max_tokens (modelName : string)
    (request : GenerateRequest) (stream : option bool) (body : Body)
    (cfg : Config) (q : Q) :
  config request = Some cfg ->
  maxOutputTokens cfg = Some (Fin q) ->
  (q == 0)%Q ->
  toAnthropicRequestBody modelName request stream = Ok body ->
  ~ In "max_tokens" (BodyOps.keys body)
  /\ BodyOps.get "max_tokens" body = None.
Proof.
  intros Hcfg Hmax Hq Hok.
  assert (Hnot : ~ In "max_tokens" (BodyOps.keys body)).
  { apply toAnthropicRequestBody_inv in Hok as (mv & cv & _ & _ & _ & ->).
    intros Hin. unfold BodyOps.keys in Hin.
    apply in_map_iff in Hin as ([k w] & Hfst & Hin). simpl in Hfst. subst k.
    apply filter_In in Hin as [Hin Hkeep]. unfold kept in Hkeep. simpl in Hkeep.
    unfold bodyLiteral, configField in Hin. rewrite Hcfg, Hmax in Hin.
    simpl in Hin.
    repeat (destruct Hin as [Hin|Hin]; [try discriminate Hin|]); [|contradiction].
    injection Hin as <-. unfold stripped in Hkeep. simpl in Hkeep.
    apply Qeq_bool_iff in Hq. rewrite Hq in Hkeep. discriminate Hkeep. }
  split; [exact Hnot|]. now apply get_None.
Qed.

Lemma toAnthropicRequestBody_zero_max_tokens_witness :
  toAnthropicRequestBody "claude-3-opus" Sample.request (Some true)
  = Ok [ ("system", BString "S");
         ("messages", BMessages [mkMessageParam role_user [TextBlock (Some "hi")]]);
         ("model", BString "claude-3-opus-20240229");
         ("temperature", BNumber (Fin (7 # 10)%Q));
         ("stream", BBoolean true) ]
  /\ ~ In "max_tokens"
         (BodyOps.keys
            [ ("system", BString "S");
              ("messages", BMessages [mkMessageParam role_user [TextBlock (Some "hi")]]);
              ("model", BString "claude-3-opus-20240229");
              ("temperature", BNumber (Fin (7 # 10)%Q));
              ("stream", BBoolean true) ]).
Proof.
  split; [reflexivity|].
  exact (proj1 (toAnthropicRequestBody_zero_max_tokens "claude-3-opus" Sample.request
                  (Some true) _ Sample.zeroTokensConfig 0%Q
                  eq_refl eq_refl (Qeq_refl 0%Q) eq_refl)).
Defined.

(** * Further properties of the conversion layer *)

(** ** Data URLs and media *)

(** X1.  [extractDataFromBase64Url] succeeds exactly on the urls that read
    [data:], a non-empty type without semicolon, [;base64,] and a non-empty
    payload without line terminator; the url is then rebuilt from the two
    extracted strings. *)
Theorem extractDataFromBase64Url_round_trip (url : string) (b : Base64Data) :
  extractDataFromBase64Url url = Some b
  <-> url = toDataUrl (b64_contentType b) (b64_data b)
      /\ b64_contentType b <> ""
      /\ noSemicolon (b64_contentType b) = true
      /\ b64_data b <> ""
      /\ DataUrl.hasLineTerminator (b64_data b) = false.
Proof. destruct b as [mime payload]. apply extractDataFromBase64Url_spec. Qed.

(** X2.  A part without text whose media url is a data URL converts to an
    image block holding the payload, whatever tool request or tool response
    the part also carries; the content type of the media, when it has one,
    replaces the type read in the url. *)
Theorem toAnthropicMessageContent_media (m : Media) (request : option ToolRequest)
    (response : option ToolResponse) (mime payload : string) :
  MatchesDataUrl (url m) mime payload ->
  toAnthropicMessageContent (mkPart None (Some m) request response)
  = Ok (ImageBlock payload
          (JStr match contentType m with
                | Some explicit => explicit
                | None => mime
                end)).
Proof.
  intros H. apply extractDataFromBase64Url_spec in H.
  exact (toAnthropicMessageContent_media_ok m (mkBase64Data mime payload) H).
Qed.

Lemma toAnthropicMessageContent_media_witness :
  toAnthropicMessageContent
    (mkPart None (Some (mkMedia "data:image/png;base64,AAAA" (Some "image/webp")))
       (Some Sample.weatherRequest) None)
  = Ok (ImageBlock "AAAA" (JStr "image/webp")).
Proof.
  apply (toAnthropicMessageContent_media
           (mkMedia "data:image/png;base64,AAAA" (Some "image/webp"))
           (Some Sample.weatherRequest) None "image/png" "AAAA").
  repeat split; discriminate.
Defined.

Lemma toAnthropicMessageContent_errors_inv (p : Part) (e : Error) :
  toAnthropicMessageContent p = Err e ->
  e = UnsupportedPartFields p \/ exists m, e = InvalidPartMedia m.
Proof.
  unfold toAnthropicMessageContent.
  destruct (Js.truthyOptString (text p)); [discriminate|].
  destruct (media p) as [m|].
  - destruct (extractDataFromBase64Url (url m)) as [b|]; simpl.
    + destruct (Js.truthyString (b64_data b)); simpl; [discriminate|].
      intros [= <-]. right. now exists m.
    + intros [= <-]. right. now exists m.
  - destruct (toolRequest p); [discriminate|].
    destruct (toolResponse p) as [rs|] eqn:Hs.
    + destruct (toAnthropicToolResponseContent_total p rs Hs) as [c ->].
      discriminate.
    + intros [= <-]. now left.
Qed.

(** X3.  [toAnthropicMessageContent] throws in two cases only, both with a
    falsy text: no other tag is set (unsupported part fields), or the media
    url is not a data URL (invalid media).  It never throws the error of the
    tool-response sub-converter. *)
Theorem toAnthropicMessageContent_errors (p : Part) (e : Error) :
  toAnthropicMessageContent p = Err e
  <-> Js.truthyOptString (text p) = false
      /\ ((media p = None /\ toolRequest p = None /\ toolResponse p = None
           /\ e = UnsupportedPartFields p)
          \/ (exists m, media p = Some m
                        /\ extractDataFromBase64Url (url m) = None
                        /\ e = InvalidPartMedia m)).
Proof.
  unfold toAnthropicMessageContent.
  destruct (Js.truthyOptString (text p)) eqn:Ht.
  { split; [discriminate|]. intros [H _]. discriminate H. }
  destruct (media p) as [m|] eqn:Hm.
  - destruct (extractDataFromBase64Url (url m)) as [b|] eqn:Hb; simpl.
    + rewrite (extractDataFromBase64Url_data _ _ Hb). simpl.
      split; [discriminate|].
      intros [_ [(H & _)|(m' & [= <-] & H & _)]]; congruence.
    + split.
      * intros [= <-]. split; [reflexivity|]. right. now exists m.
      * intros [_ [(H & _)|(m' & [= <-] & _ & ->)]]; [discriminate H|reflexivity].
  - destruct (toolRequest p) as [rq|] eqn:Hq.
    + split; [discriminate|].
      intros [_ [(_ & H & _)|(m' & H & _)]]; discriminate H.
    + destruct (toolResponse p) as [rs|] eqn:Hs.
      * destruct (toAnthropicToolResponseContent_total p rs Hs) as [c ->]. simpl.
        split; [discriminate|].
        intros [_ [(_ & _ & H & _)|(m' & H & _)]]; discriminate H.
      * split.
        -- intros [= <-]. split; [reflexivity|]. left. repeat split.
        -- intros [_ [(_ & _ & _ & ->)|(m' & H & _)]]; [reflexivity|discriminate H].
Qed.

(** ** Tool responses *)

Lemma stringify_undefined (v : JsVal) : Js.stringify v = None <-> v = JUndefined.
Proof. destruct v; simpl; split; congruence. Qed.

(** X4.  A part that reaches the tool-response branch converts to a
    [tool_result] block whose [tool_use_id] is the ref of the response and
    whose content is the single block of the sub-converter, a text or an
    image block. *)
Theorem toAnthropicMessageContent_toolResponse (p : Part) (r : ToolResponse) :
  Js.truthyOptString (text p) = false ->
  media p = None ->
  toolRequest p = None ->
  toolResponse p = Some r ->
  exists c,
    toAnthropicToolResponseContent p = Ok c
    /\ toAnthropicMessageContent p = Ok (ToolResultBlock (res_ref r) [c])
    /\ (blockType c = type_text \/ blockType c = type_image).
Proof.
  intros Ht Hm Hq Hr.
  destruct (toAnthropicToolResponseContent_total p r Hr) as [c Hc].
  exists c. split; [exact Hc|]. split.
  - unfold toAnthropicMessageContent. now rewrite Ht, Hm, Hq, Hr, Hc.
  - unfold toAnthropicToolResponseContent in Hc. rewrite Hr in Hc.
    destruct (match mediaUrl (res_output r), res_output r with
              | Some u, _ => extractDataFromBase64Url u
              | None, JStr s => extractDataFromBase64Url s
              | None, _ => None
              end); injection Hc as <-; [right|left]; reflexivity.
Qed.

Lemma toAnthropicMessageContent_toolResponse_witness :
  exists c,
    toAnthropicToolResponseContent (toolResponsePart Sample.fooResponse) = Ok c
    /\ toAnthropicMessageContent (toolResponsePart Sample.fooResponse)
       = Ok (ToolResultBlock (Some "call_1") [c])
    /\ (blockType c = type_text \/ blockType c = type_image).
Proof.
  exact (toAnthropicMessageContent_toolResponse
           (toolResponsePart Sample.fooResponse) Sample.fooResponse
           eq_refl eq_refl eq_refl eq_refl).
Defined.

(** X5.  The sub-converter emits a text block with an undefined text exactly
    when the tool response has no output: [JSON.stringify(undefined)] is
    [undefined]. *)
Theorem toAnthropicToolResponseContent_undefined_text (p : Part) (r : ToolResponse) :
  toolResponse p = Some r ->
  (toAnthropicToolResponseContent p = Ok (TextBlock None)
   <-> res_output r = JUndefined).
Proof.
  intros Hr. unfold toAnthropicToolResponseContent. rewrite Hr. split.
  - destruct (match mediaUrl (res_output r), res_output r with
              | Some u, _ => extractDataFromBase64Url u
              | None, JStr s => extractDataFromBase64Url s
              | None, _ => None
              end); [discriminate|].
    intros [= H]. destruct (res_output r); try discriminate H. reflexivity.
  - intros ->. reflexivity.
Qed.

Lemma toAnthropicToolResponseContent_undefined_text_witness :
  toAnthropicToolResponseContent
    (toolResponsePart (mkToolResponse (Some "call_1") "noop" JUndefined))
  = Ok (TextBlock None).
Proof.
  apply (toAnthropicToolResponseContent_undefined_text
           (toolResponsePart (mkToolResponse (Some "call_1") "noop" JUndefined))
           (mkToolResponse (Some "call_1") "noop" JUndefined) eq_refl).
  reflexivity.
Defined.

(** ** Inbound conversion *)

Lemma block_round_trip_eq (b : ContentBlock) :
  toAnthropicMessageContent (fromAnthropicContentBlock b)
  = if resendable b then Ok b
    else Err (UnsupportedPartFields (fromAnthropicContentBlock b)).
Proof. destruct b as [[[|c s]|]| | |]; reflexivity. Qed.

(** X6.  A provider block converted to a part and back is unchanged when it
    is a [tool_use] block or a text block with a non-empty text; for every
    other block (an empty or missing text, an image, a tool result) the way
    back throws the unsupported-part error. *)
Theorem block_round_trip (b : ContentBlock) :
  (resendable b = true
   <-> toAnthropicMessageContent (fromAnthropicContentBlock b) = Ok b)
  /\ (resendable b = false
      <-> toAnthropicMessageContent (fromAnthropicContentBlock b)
          = Err (UnsupportedPartFields (fromAnthropicContentBlock b))).
Proof.
  rewrite block_round_trip_eq. destruct (resendable b); repeat split; congruence.
Qed.

Lemma mapResult_map_ok {A B : Type} (f : A -> Result B) (g : B -> A) (l : list B) :
  (forall x, In x l -> f (g x) = Ok x) -> mapResult f (map g l) = Ok l.
Proof.
  induction l as [|x l IH]; intros H; simpl; [reflexivity|].
  rewrite (H x (or_introl eq_refl)). simpl.
  rewrite IH; [reflexivity|]. intros y Hy. apply H. now right.
Qed.

Lemma mapResult_In_Err {A B : Type} (f : A -> Result B) (l : list A) (x : A) (e : Error) :
  In x l -> f x = Err e -> exists e', mapResult f l = Err e'.
Proof.
  induction l as [|a l IH]; intros Hin Hx; [contradiction|]. simpl.
  destruct (f a) as [y|e1] eqn:Ha; simpl; [|now exists e1].
  destruct Hin as [->|Hin]; [congruence|].
  destruct (IH Hin Hx) as [e' ->]. now exists e'.
Qed.

(** X7.  The message of a converted response goes back through the outbound
    conversion exactly when every block of the response is a [tool_use] block
    or a non-empty text block; it then gives an assistant message with the
    blocks of the response, unchanged and in order. *)
Theorem response_message_converts_back (response : AnthropicMessage) (pm : MessageParam) :
  (exists c, candidates (fromAnthropicResponse response) = [c]
             /\ convertMessage (cand_message c) = Ok pm)
  <-> forallb resendable (msg_content response) = true
      /\ pm = mkMessageParam role_assistant (msg_content response).
Proof.
  unfold fromAnthropicResponse. simpl. split.
  - intros (c & [= <-] & Hc). unfold convertMessage in Hc. simpl in Hc.
    destruct (forallb resendable (msg_content response)) eqn:Hall.
    + rewrite mapResult_map_ok in Hc.
      * simpl in Hc. injection Hc as <-. split; reflexivity.
      * intros b Hb. rewrite forallb_forall in Hall.
        rewrite block_round_trip_eq. now rewrite (Hall b Hb).
    + exfalso.
      assert (Hex : existsb (fun b => negb (resendable b)) (msg_content response) = true).
      { clear Hc. induction (msg_content response) as [|b l IH]; [discriminate Hall|].
        simpl in *. destruct (resendable b); simpl in *; [now apply IH|reflexivity]. }
      apply existsb_exists in Hex as (b & Hb & Hnot).
      apply negb_true_iff in Hnot.
      destruct (mapResult_In_Err toAnthropicMessageContent
                  (map fromAnthropicContentBlock (msg_content response))
                  (fromAnthropicContentBlock b)
                  (UnsupportedPartFields (fromAnthropicContentBlock b))) as [e' He'].
      * now apply in_map.
      * rewrite block_round_trip_eq. now rewrite Hnot.
      * rewrite He' in Hc. discriminate Hc.
  - intros [Hall ->]. eexists. split; [reflexivity|].
    unfold convertMessage. simpl. rewrite mapResult_map_ok; [reflexivity|].
    intros b Hb. rewrite forallb_forall in Hall.
    rewrite block_round_trip_eq. now rewrite (Hall b Hb).
Qed.

(** ** Response / Stream Reducer *)

(** X8.  Stop-reason normalization: [max_tokens] alone gives [length];
    [end_turn], [stop_sequence] and [tool_use] alone give [stop]; [null]
    alone gives [unknown]; every other string gives [other]; [blocked] and
    [interrupted] are never produced. *)
Theorem fromAnthropicStopReason_spec (reason : option string) :
  (fromAnthropicStopReason reason = finish_length <-> reason = Some "max_tokens")
  /\ (fromAnthropicStopReason reason = finish_stop
      <-> reason = Some "end_turn" \/ reason = Some "stop_sequence"
          \/ reason = Some "tool_use")
  /\ (fromAnthropicStopReason reason = finish_unknown <-> reason = None)
  /\ (fromAnthropicStopReason reason = finish_other
      <-> exists r, reason = Some r /\ r <> "max_tokens" /\ r <> "end_turn"
                    /\ r <> "stop_sequence" /\ r <> "tool_use")
  /\ fromAnthropicStopReason reason <> finish_blocked
  /\ fromAnthropicStopReason reason <> finish_interrupted.
Proof.
  destruct reason as [r|]; simpl.
  - destruct (String.eqb_spec r "max_tokens") as [->|H1].
    { repeat split; try discriminate; try reflexivity.
      - intros [H|[H|H]]; discriminate H.
      - intros (r & [= <-] & H & _). now elim H. }
    destruct (String.eqb_spec r "end_turn") as [->|H2].
    { repeat split; try discriminate; try reflexivity.
      - intros _. now left.
      - intros (r & [= <-] & _ & H & _). now elim H. }
    destruct (String.eqb_spec r "stop_sequence") as [->|H3].
    { repeat split; try discriminate; try reflexivity.
      - intros _. right. now left.
      - intros (r & [= <-] & _ & _ & H & _). now elim H. }
    destruct (String.eqb_spec r "tool_use") as [->|H4].
    { repeat split; try discriminate; try reflexivity.
      - intros _. right. now right.
      - intros (r & [= <-] & _ & _ & _ & H). now elim H. }
    repeat split; try discriminate; try congruence.
    + intros [H|[H|H]]; congruence.
    + intros _. exists r. repeat split; assumption.
  - repeat split; try discriminate; try reflexivity.
    + intros [H|[H|H]]; discriminate H.
    + intros (r & H & _). discriminate H.
Qed.

(** X9.  A converted response has exactly one candidate, of index 0 and role
    [model], with one part per content block in the order of the response:
    a [tool_use] block stands at its position as the tool request of the same
    id, name and input, and no part carries media or a tool response.  The
    token counts and the raw response are copied. *)
Theorem fromAnthropicResponse_shape (response : AnthropicMessage) :
  exists c,
    candidates (fromAnthropicResponse response) = [c]
    /\ cand_index c = 0
    /\ role (cand_message c) = model
    /\ length (content (cand_message c)) = length (msg_content response)
    /\ (forall i id name input,
           nth_error (msg_content response) i = Some (ToolUseBlock id name input)
           <-> nth_error (content (cand_message c)) i
               = Some (toolRequestPart (mkToolRequest id name input)))
    /\ (forall p, In p (content (cand_message c)) ->
                  tagCount p <= 1 /\ media p = None /\ toolResponse p = None)
    /\ inputTokens (usage (fromAnthropicResponse response))
       = input_tokens (msg_usage response)
    /\ outputTokens (usage (fromAnthropicResponse response))
       = output_tokens (msg_usage response)
    /\ custom (fromAnthropicResponse response) = response.
Proof.
  eexists. split; [reflexivity|]. simpl. repeat split.
  - apply length_map.
  - intros H. rewrite nth_error_map, H. reflexivity.
  - rewrite nth_error_map.
    destruct (nth_error (msg_content response) i) as [[t| | |]|]; simpl;
      try discriminate.
    intros [= -> -> ->]. reflexivity.
  - apply in_map_iff in H as (b & <- & _).
    destruct b as [[t|]| | |]; unfold tagCount; simpl; lia.
  - apply in_map_iff in H as (b & <- & _). now destruct b.
  - apply in_map_iff in H as (b & <- & _). now destruct b.
Qed.

(** Events other than block starts and block deltas convert to nothing; the
    two that remain always convert. *)
Lemma fromAnthropicContentBlockChunk_None (event : MessageStreamEvent) :
  fromAnthropicContentBlockChunk event = None <-> convertible event = false.
Proof.
  destruct event; unfold fromAnthropicContentBlockChunk; simpl; split;
    intros H; try discriminate H; reflexivity.
Qed.

(** X10.  The streaming converter yields no part exactly for the events that
    are neither a block start nor a block delta.  For those two it reads the
    fragment of the event and yields a text part when the type of the
    fragment is [text] or [text_delta], and otherwise, whatever the type, a
    tool request made of the id, name and input found on the fragment. *)
Theorem fromAnthropicContentBlockChunk_spec (event : MessageStreamEvent) :
  (fromAnthropicContentBlockChunk event = None <-> convertible event = false)
  /\ (forall fragment,
         event = content_block_start fragment \/ event = content_block_delta fragment ->
         (frag_type fragment = "text" \/ frag_type fragment = "text_delta" ->
          fromAnthropicContentBlockChunk event = Some (ChunkText (frag_text fragment)))
         /\ (frag_type fragment <> "text" -> frag_type fragment <> "text_delta" ->
             fromAnthropicContentBlockChunk event
             = Some (ChunkToolRequest
                       (mkToolRequestChunk (frag_id fragment) (frag_name fragment)
                                           (frag_input fragment))))).
Proof.
  split; [apply fromAnthropicContentBlockChunk_None|].
  intros fragment Hev.
  assert (Hf : fromAnthropicContentBlockChunk event
               = Some (if isTextType (frag_type fragment)
                       then ChunkText (frag_text fragment)
                       else ChunkToolRequest
                              (mkToolRequestChunk (frag_id fragment)
                                 (frag_name fragment) (frag_input fragment)))).
  { destruct Hev as [-> | ->]; reflexivity. }
  rewrite Hf. unfold isTextType. simpl. split.
  - intros [-> | ->]; reflexivity.
  - intros H1 H2. apply String.eqb_neq in H1, H2. now rewrite H1, H2.
Qed.

(** ** Request Body Builder, field by field *)

Lemma get_filter_kept (key : string) (body : Body) :
  NoDup (BodyOps.keys body) ->
  BodyOps.get key (filter kept body)
  = match BodyOps.get key body with
    | Some v => if stripped v then None else Some v
    | None => None
    end.
Proof.
  induction body as [|[k w] body IH]; intros Hnd; [reflexivity|].
  inversion Hnd as [|? ? Hnotin Hnd']; subst. simpl.
  unfold kept at 1. simpl.
  destruct (String.eqb_spec k key) as [->|Hne].
  - destruct (stripped w); simpl.
    + apply get_None. intros Hin. apply Hnotin. unfold BodyOps.keys in *.
      apply in_map_iff in Hin as ([k' w'] & Hk & Hin). simpl in Hk. subst k'.
      apply filter_In in Hin as [Hin _].
      change key with (fst (key, w')). now apply in_map.
    + now rewrite String.eqb_refl.
  - destruct (stripped w); simpl.
    + now apply IH.
    + apply String.eqb_neq in Hne. rewrite Hne. now apply IH.
Qed.

(** X11.  After the stripping loop a key of the body holds what it held
    before when that value is truthy and not an empty list, and nothing
    otherwise; keys the body never had stay absent. *)
Theorem strip_get (key : string) (body : Body) :
  NoDup (BodyOps.keys body) ->
  BodyOps.get key (BodyOps.strip body)
  = match BodyOps.get key body with
    | Some v => if BodyOps.truthy v && negb (BodyOps.isEmptyArray v)
                then Some v else None
    | None => None
    end.
Proof.
  intros Hnd. rewrite (strip_filter body Hnd), (get_filter_kept key body Hnd).
  destruct (BodyOps.get key body) as [v|]; [|reflexivity].
  unfold stripped. now destruct (BodyOps.truthy v), (BodyOps.isEmptyArray v).
Qed.

Lemma strip_get_witness :
  BodyOps.get "tools"
    (BodyOps.strip [("tools", BTools []); ("model", BString "m"); ("stream", BBoolean false)])
  = None
  /\ BodyOps.get "model"
       (BodyOps.strip [("tools", BTools []); ("model", BString "m"); ("stream", BBoolean false)])
     = Some (BString "m").
Proof.
  assert (Hnd : NoDup (BodyOps.keys
                         [("tools", BTools []); ("model", BString "m");
                          ("stream", BBoolean false)])).
  { repeat (constructor; [simpl; intuition discriminate|]). constructor. }
  split.
  - exact (strip_get "tools" _ Hnd).
  - exact (strip_get "model" _ Hnd).
Defined.

(** The fields of a returned body, read off the literal. *)
Lemma toAnthropicRequestBody_get (modelName : string) (request : GenerateRequest)
    (stream : option bool) (body : Body) :
  toAnthropicRequestBody modelName request stream = Ok body ->
  exists modelVersion converted,
    lookupModelVersion modelName = Some modelVersion
    /\ toAnthropicMessages (messages request) = Ok converted
    /\ forall key,
         BodyOps.get key body
         = match BodyOps.get key
                   (bodyLiteral modelName modelVersion converted request stream) with
           | Some v => if stripped v then None else Some v
           | None => None
           end.
Proof.
  intros Hok. apply toAnthropicRequestBody_inv in Hok
    as (mv & cv & Hl & Hm & _ & ->).
  exists mv, cv. repeat split; try assumption.
  intros key. apply get_filter_kept, bodyLiteral_NoDup.
Qed.

(** A system string that comes out of a successful conversion is not
    empty. *)
Lemma toAnthropicMessages_system_truthy (msgs : list MessageData) (r : AnthropicMessages)
    (s : string) :
  toAnthropicMessages msgs = Ok r -> am_system r = Some s -> s <> "".
Proof.
  intros Hok Hs. destruct msgs as [|first rest].
  - apply toAnthropicMessages_inv in Hok as [Hsys _]. rewrite Hsys in Hs.
    discriminate Hs.
  - assert (Hr : role first = system).
    { apply toAnthropicMessages_inv in Hok as [Hsys _]. rewrite Hsys in Hs.
      simpl in Hs. destruct (role first); try discriminate Hs. reflexivity. }
    apply (toAnthropicMessages_returns first rest r Hok) in Hr
      as (s' & Hs' & Hne & _).
    congruence.
Qed.

(** X12.  In a returned body, [system] is the system string of the message
    conversion and is absent when there is none; [messages] is the converted
    list and is absent when that list is empty, as for a request that holds
    only a system message. *)
Theorem toAnthropicRequestBody_conversation (modelName : string)
    (request : GenerateRequest) (stream : option bool) (body : Body) :
  toAnthropicRequestBody modelName request stream = Ok body ->
  exists converted,
    toAnthropicMessages (messages request) = Ok converted
    /\ BodyOps.get "system" body = option_map BString (am_system converted)
    /\ BodyOps.get "messages" body
       = match am_messages converted with
         | [] => None
         | m :: ms => Some (BMessages (m :: ms))
         end.
Proof.
  intros Hok. destruct (toAnthropicRequestBody_get _ _ _ _ Hok)
    as (mv & cv & _ & Hm & Hget).
  exists cv. split; [exact Hm|]. rewrite !Hget. simpl. split.
  - destruct (am_system cv) as [s|] eqn:Hs; [|reflexivity]. simpl.
    pose proof (toAnthropicMessages_system_truthy _ _ _ Hm Hs) as Hne.
    unfold stripped. simpl. apply truthyString_nonempty in Hne. now rewrite Hne.
  - destruct (am_messages cv); reflexivity.
Qed.

Lemma toAnthropicRequestBody_conversation_witness :
  exists converted,
    toAnthropicMessages [mkMessageData system [textPart "S"]] = Ok converted
    /\ BodyOps.get "system"
         [("system", BString "S"); ("max_tokens", BNumber (Fin (inject_Z 4096)));
          ("model", BString "claude-3-haiku-20240307")]
       = option_map BString (am_system converted)
    /\ BodyOps.get "messages"
         [("system", BString "S"); ("max_tokens", BNumber (Fin (inject_Z 4096)));
          ("model", BString "claude-3-haiku-20240307")]
       = match am_messages converted with
         | [] => None
         | m :: ms => Some (BMessages (m :: ms))
         end.
Proof.
  exact (toAnthropicRequestBody_conversation "claude-3-haiku"
           (mkGenerateRequest [mkMessageData system [textPart "S"]] None None None)
           None _ eq_refl).
Defined.

(** X13.  In a returned body, [model] is the version of the config when the
    config sets one, else the version pinned by the registry entry of the
    model name; an empty version in the config leaves the body without
    [model]. *)
Theorem toAnthropicRequestBody_model (modelName : string)
    (request : GenerateRequest) (stream : option bool) (body : Body) :
  toAnthropicRequestBody modelName request stream = Ok body ->
  (forall v, configField version request = Some v ->
             BodyOps.get "model" body
             = if Js.truthyString v then Some (BString v) else None)
  /\ (configField version request = None ->
      forall entry, ownModel modelName SUPPORTED_CLAUDE_MODELS = Some entry ->
                    BodyOps.get "model" body = option_map BString (mr_version entry)).
Proof.
  intros Hok. destruct (toAnthropicRequestBody_get _ _ _ _ Hok)
    as (mv & cv & Hl & _ & Hget).
  assert (Hlit : BodyOps.get "model" (bodyLiteral modelName mv cv request stream)
                 = Some (BString (mappedModelName modelName mv request)))
    by reflexivity.
  rewrite Hget, Hlit. unfold mappedModelName, stripped.
  cbn [BodyOps.truthy BodyOps.isEmptyArray]. rewrite orb_false_r. split.
  - intros v ->. now destruct (Js.truthyString v).
  - intros -> entry He. unfold lookupModelVersion in Hl. rewrite He in Hl.
    injection Hl as <-.
    unfold SUPPORTED_CLAUDE_MODELS in He. cbn [ownModel] in He.
    repeat match type of He with
           | (if ?c then _ else _) = _ =>
               destruct c; [injection He as <-; reflexivity|]
           end.
    discriminate He.
Qed.

Lemma toAnthropicRequestBody_model_witness :
  (forall v, configField version Fixture.userHi = Some v ->
             BodyOps.get "model" Fixture.userHiBody
             = if Js.truthyString v then Some (BString v) else None)
  /\ (configField version Fixture.userHi = None ->
      forall entry, ownModel "claude-3-haiku" SUPPORTED_CLAUDE_MODELS = Some entry ->
                    BodyOps.get "model" Fixture.userHiBody
                    = option_map BString (mr_version entry)).
Proof.
  exact (toAnthropicRequestBody_model "claude-3-haiku" Fixture.userHi None
           Fixture.userHiBody eq_refl).
Defined.

(** X14.  In a returned body, [max_tokens] is the config's [maxOutputTokens],
    or 4096 when the config has none; [top_k], [top_p] and [temperature] are
    the config's values.  Each of the four is absent when its value is 0 or
    NaN: a temperature of 0 is not sent. *)
Theorem toAnthropicRequestBody_numbers (modelName : string)
    (request : GenerateRequest) (stream : option bool) (body : Body) :
  toAnthropicRequestBody modelName request stream = Ok body ->
  BodyOps.get "max_tokens" body
  = numberField (Some match configField maxOutputTokens request with
                      | Some n => n
                      | None => Fin (inject_Z 4096)
                      end)
  /\ BodyOps.get "top_k" body = numberField (configField topK request)
  /\ BodyOps.get "top_p" body = numberField (configField topP request)
  /\ BodyOps.get "temperature" body = numberField (configField temperature request).
Proof.
  intros Hok. destruct (toAnthropicRequestBody_get _ _ _ _ Hok)
    as (mv & cv & _ & _ & Hget).
  rewrite !Hget. simpl. unfold stripped, numberField. simpl.
  repeat split.
  - destruct (configField maxOutputTokens request) as [n|]; simpl;
      [now destruct (BodyOps.truthyNumber n)|reflexivity].
  - destruct (configField topK request) as [n|]; simpl;
      [now destruct (BodyOps.truthyNumber n)|reflexivity].
  - destruct (configField topP request) as [n|]; simpl;
      [now destruct (BodyOps.truthyNumber n)|reflexivity].
  - destruct (configField temperature request) as [n|]; simpl;
      [now destruct (BodyOps.truthyNumber n)|reflexivity].
Qed.

Lemma toAnthropicRequestBody_numbers_witness :
  BodyOps.get "max_tokens" Fixture.userHiBody
  = numberField (Some match configField maxOutputTokens Fixture.userHi with
                      | Some n => n
                      | None => Fin (inject_Z 4096)
                      end)
  /\ BodyOps.get "top_k" Fixture.userHiBody
     = numberField (configField topK Fixture.userHi)
  /\ BodyOps.get "top_p" Fixture.userHiBody
     = numberField (configField topP Fixture.userHi)
  /\ BodyOps.get "temperature" Fixture.userHiBody
     = numberField (configField temperature Fixture.userHi).
Proof.
  exact (toAnthropicRequestBody_numbers "claude-3-haiku" Fixture.userHi None
           Fixture.userHiBody eq_refl).
Defined.

(** X15.  In a returned body, [tools] is the list of converted tool
    definitions, each with its name, description and schema unchanged, and
    [stop_sequences] is the config's list; both are absent when the list is
    missing or empty.  [metadata] and [tool_choice] are the config's values,
    absent only when the config has none. *)
Theorem toAnthropicRequestBody_optional (modelName : string)
    (request : GenerateRequest) (stream : option bool) (body : Body) :
  toAnthropicRequestBody modelName request stream = Ok body ->
  BodyOps.get "tools" body
  = match tools request with
    | Some (t :: ts) => Some (BTools (map toAnthropicTool (t :: ts)))
    | _ => None
    end
  /\ (forall t, t_name (toAnthropicTool t) = td_name t
                /\ t_description (toAnthropicTool t) = td_description t
                /\ t_input_schema (toAnthropicTool t) = td_inputSchema t)
  /\ BodyOps.get "stop_sequences" body
     = match configField stopSequences request with
       | Some (s :: ss) => Some (BStrings (s :: ss))
       | _ => None
       end
  /\ BodyOps.get "metadata" body = option_map BMetadata (configField metadata request)
  /\ BodyOps.get "tool_choice" body
     = option_map BToolChoice (configField tool_choice request).
Proof.
  intros Hok. destruct (toAnthropicRequestBody_get _ _ _ _ Hok)
    as (mv & cv & _ & _ & Hget).
  rewrite !Hget. simpl. repeat split.
  - destruct (tools request) as [[|t ts]|]; reflexivity.
  - destruct (configField stopSequences request) as [[|s ss]|]; reflexivity.
  - destruct (configField metadata request); reflexivity.
  - destruct (configField tool_choice request); reflexivity.
Qed.

Lemma toAnthropicRequestBody_optional_witness :
  exists body,
    toAnthropicRequestBody "claude-3-opus" Fixture.fullRequest (Some true) = Ok body
    /\ BodyOps.get "tools" body
       = Some (BTools [mkTool "weather" "Looks up the weather."
                         (JObj [("type", JStr "object")])])
    /\ BodyOps.get "stop_sequences" body = Some (BStrings ["END"])
    /\ BodyOps.get "metadata" body = Some (BMetadata (mkMetadata (Some "u1")))
    /\ BodyOps.get "tool_choice" body = Some (BToolChoice choice_auto).
Proof.
  eexists. split; [reflexivity|].
  pose proof (toAnthropicRequestBody_optional "claude-3-opus" Fixture.fullRequest
                (Some true) _ eq_refl) as (Ht & _ & Hs & Hm & Hc).
  repeat split; assumption.
Defined.

(** X16.  The stream flag decides one key only: with [true] the body is the
    body built without flag followed by [stream: true]; with [false] it is
    the body built without flag; the builder throws with a flag exactly as
    without. *)
Theorem toAnthropicRequestBody_stream (modelName : string)
    (request : GenerateRequest) (stream : option bool) :
  toAnthropicRequestBody modelName request stream
  = match toAnthropicRequestBody modelName request None with
    | Ok body =>
        Ok (body ++ match stream with
                    | Some true => [("stream", BBoolean true)]
                    | _ => []
                    end)%list
    | Err e => Err e
    end.
Proof.
  unfold toAnthropicRequestBody.
  destruct (lookupModelVersion modelName) as [mv|]; [|reflexivity].
  destruct (toAnthropicMessages (messages request)) as [cv|e]; [|reflexivity].
  simpl. destruct (nonTextFormat request); [reflexivity|].
  rewrite !strip_filter by apply bodyLiteral_NoDup.
  assert (Hsplit : forall s,
             bodyLiteral modelName mv cv request s
             = (firstn 11 (bodyLiteral modelName mv cv request None)
                  ++ [("stream", BodyOps.ofOption BBoolean s)])%list)
    by reflexivity.
  rewrite (Hsplit stream), (Hsplit None), !filter_app.
  destruct stream as [[|]|]; simpl; rewrite ?app_nil_r; reflexivity.
Qed.

Lemma toAnthropicMessages_error_kind (msgs : list MessageData) (e : Error) :
  toAnthropicMessages msgs = Err e ->
  (forall n, e <> UnsupportedModel n) /\ e <> OnlyTextOutputFormat.
Proof.
  unfold toAnthropicMessages. rewrite convertLoop_mapResult.
  generalize (messagesToIterate msgs). intros l.
  destruct (mapResult convertMessage l) as [out|e'] eqn:Hmap; [discriminate|].
  simpl. intros [= <-]. revert Hmap.
  induction l as [|m l IH]; simpl; [discriminate|].
  destruct (convertMessage m) as [pm|e1] eqn:Hm; simpl.
  - destruct (mapResult convertMessage l); simpl; [discriminate|].
    intros [= <-]. now apply IH.
  - intros [= <-]. clear IH. unfold convertMessage in Hm.
    destruct (mapResult toAnthropicMessageContent (content m)) as [bs|e2] eqn:Hc;
      simpl in Hm.
    + destruct (role m); simpl in Hm; try discriminate Hm.
      injection Hm as <-. split; [intros n|]; discriminate.
    + injection Hm as <-. revert Hc.
      generalize (content m). intros ps.
      induction ps as [|p ps IH]; simpl; [discriminate|].
      destruct (toAnthropicMessageContent p) as [b|e3] eqn:Hp; simpl.
      * destruct (mapResult toAnthropicMessageContent ps); simpl; [discriminate|].
        intros [= <-]. now apply IH.
      * intros [= <-]. apply toAnthropicMessageContent_errors_inv in Hp.
        destruct Hp as [-> | [m' ->]]; split; try intros n; discriminate.
Qed.

Lemma nonTextFormat_spec (request : GenerateRequest) :
  nonTextFormat request = true
  <-> exists o f, output request = Some o /\ format o = Some f
                  /\ f <> "" /\ f <> "text".
Proof.
  unfold nonTextFormat. split.
  - destruct (output request) as [o|]; [|discriminate].
    destruct (format o) as [f|] eqn:Hf; [|discriminate].
    intros H. apply andb_prop in H as [H1 H2].
    exists o, f. repeat split; try assumption.
    + now apply truthyString_nonempty.
    + apply negb_true_iff in H2. now apply String.eqb_neq.
  - intros (o & f & -> & -> & H1 & H2).
    apply truthyString_nonempty in H1. apply String.eqb_neq in H2.
    now rewrite H1, H2.
Qed.

(** X17.  The builder throws in three cases, tried in this order: the model
    name does not resolve (unsupported model); else the message conversion
    throws, and its error is passed on; else the request asks for an output
    format that is a non-empty string other than [text]. *)
Theorem toAnthropicRequestBody_errors (modelName : string)
    (request : GenerateRequest) (stream : option bool) (e : Error) :
  toAnthropicRequestBody modelName request stream = Err e
  <-> (lookupModelVersion modelName = None /\ e = UnsupportedModel modelName)
      \/ (lookupModelVersion modelName <> None
          /\ toAnthropicMessages (messages request) = Err e)
      \/ (lookupModelVersion modelName <> None
          /\ (exists converted, toAnthropicMessages (messages request) = Ok converted)
          /\ (exists o f, output request = Some o /\ format o = Some f
                          /\ f <> "" /\ f <> "text")
          /\ e = OnlyTextOutputFormat).
Proof.
  rewrite <- nonTextFormat_spec. unfold toAnthropicRequestBody.
  destruct (lookupModelVersion modelName) as [mv|].
  - destruct (toAnthropicMessages (messages request)) as [cv|e'] eqn:Hm; simpl.
    + destruct (nonTextFormat request); split.
      * intros [= <-]. right. right. repeat split; [discriminate|now exists cv].
      * intros [[H _]|[[_ H]|(_ & _ & _ & ->)]]; [discriminate H|discriminate H|reflexivity].
      * discriminate.
      * intros [[H _]|[[_ H]|(_ & _ & H & _)]]; discriminate H.
    + split.
      * intros [= <-]. right. left. split; [discriminate|reflexivity].
      * intros [[H _]|[[_ H]|(_ & [cv H] & _)]];
          [discriminate H|congruence|discriminate H].
  - split.
    + intros [= <-]. now left.
    + intros [[_ ->]|[[H _]|[H _]]]; [reflexivity|now elim H|now elim H].
Qed.

Lemma ownModel_In (modelName : string) (registry : list (string * ModelReference)) :
  ownModel modelName registry <> None <-> In modelName (map fst registry).
Proof.
  induction registry as [|[k m] registry IH]; simpl; [tauto|].
  destruct (String.eqb_spec k modelName) as [->|Hne].
  - split; [now left|discriminate].
  - rewrite IH. tauto.
Qed.

Lemma lookupModelVersion_In (modelName : string) :
  lookupModelVersion modelName <> None
  <-> In modelName (map fst SUPPORTED_CLAUDE_MODELS) \/ In modelName objectPrototypeNames.
Proof.
  unfold lookupModelVersion.
  destruct (ownModel modelName SUPPORTED_CLAUDE_MODELS) as [m|] eqn:Ho.
  - split; [|discriminate]. intros _. left. apply ownModel_In. congruence.
  - destruct (existsb (String.eqb modelName) objectPrototypeNames) eqn:He.
    + split; [|discriminate]. intros _. right.
      apply existsb_exists in He as (x & Hx & Heq).
      apply String.eqb_eq in Heq. now subst.
    + split; [congruence|]. intros [H|H].
      * apply ownModel_In in H. congruence.
      * assert (existsb (String.eqb modelName) objectPrototypeNames = true).
        { apply existsb_exists. exists modelName. split; [exact H|apply String.eqb_refl]. }
        congruence.
Qed.

(** X18.  [claudeModel] registers under [anthropic/<name>] exactly the names
    that the registry lookup resolves: the four registry keys, and the names
    every object inherits from [Object.prototype].  It throws the
    unsupported-model error exactly when the request body builder would, for
    every request: a model that registered never raises that error at
    request time. *)
Theorem claudeModel_spec (name : string) :
  (claudeModel name = Ok ("anthropic/" ++ name)
   <-> In name (map fst SUPPORTED_CLAUDE_MODELS) \/ In name objectPrototypeNames)
  /\ (claudeModel name = Err (UnsupportedModel name)
      <-> forall request stream,
            toAnthropicRequestBody name request stream = Err (UnsupportedModel name))
  /\ (claudeModel name = Ok ("anthropic/" ++ name)
      \/ claudeModel name = Err (UnsupportedModel name)).
Proof.
  rewrite <- lookupModelVersion_In. unfold claudeModel.
  destruct (lookupModelVersion name) as [mv|] eqn:Hl; repeat split;
    try discriminate; try congruence; try (now left); try (now right).
  - intros H. specialize (H Fixture.userHi None).
    unfold toAnthropicRequestBody in H. rewrite Hl in H. discriminate H.
  - intros _ request stream. unfold toAnthropicRequestBody. now rewrite Hl.
Qed.

(** ** Message Sequence Converter, order and errors *)

Lemma mapResult_length {A B : Type} (f : A -> Result B) (l : list A) (out : list B) :
  mapResult f l = Ok out -> length out = length l.
Proof.
  revert out. induction l as [|a l IH]; intros out; simpl.
  - now intros [= <-].
  - destruct (f a); simpl; [|discriminate].
    destruct (mapResult f l) as [ys|]; simpl; [|discriminate].
    intros [= <-]. simpl. f_equal. now apply IH.
Qed.

Lemma mapResult_app_Err {A B : Type} (f : A -> Result B) (pre post : list A)
    (x : A) (out : list B) (e : Error) :
  mapResult f pre = Ok out -> f x = Err e ->
  mapResult f (pre ++ x :: post)%list = Err e.
Proof.
  revert out. induction pre as [|a pre IH]; intros out Hpre Hx; simpl.
  - now rewrite Hx.
  - simpl in Hpre. destruct (f a); simpl in *; [|discriminate Hpre].
    destruct (mapResult f pre) as [ys|] eqn:Hys; simpl in Hpre; [|discriminate Hpre].
    now rewrite (IH ys eq_refl Hx).
Qed.

Lemma convertMessage_system (m : MessageData) :
  role m = system -> exists e, convertMessage m = Err e.
Proof.
  intros Hr. unfold convertMessage. rewrite Hr.
  destruct (mapResult toAnthropicMessageContent (content m)) as [bs|e]; simpl;
    eexists; reflexivity.
Qed.

(** X19.  When the converter returns, it holds one provider message per
    message it iterated, at the same position: its content is the conversion
    of the parts of the message, one block per part, a [user] message keeps
    the [user] role and a [model] message becomes [assistant], whatever
    blocks they hold; no iterated message has the [system] role. *)
Theorem toAnthropicMessages_positions (msgs : list MessageData) (r : AnthropicMessages) :
  toAnthropicMessages msgs = Ok r ->
  length (am_messages r) = length (messagesToIterate msgs)
  /\ forall i m,
       nth_error (messagesToIterate msgs) i = Some m ->
       exists pm,
         nth_error (am_messages r) i = Some pm
         /\ mapResult toAnthropicMessageContent (content m) = Ok (mp_content pm)
         /\ length (mp_content pm) = length (content m)
         /\ role m <> system
         /\ (role m = user -> mp_role pm = role_user)
         /\ (role m = model -> mp_role pm = role_assistant).
Proof.
  intros Hok. apply toAnthropicMessages_inv in Hok as [_ Hmap]. split.
  - now apply mapResult_length in Hmap.
  - intros i m Hnth.
    destruct (mapResult_nth_error _ _ _ _ _ Hmap Hnth) as (pm & Hpm & Hconv).
    exists pm. split; [exact Hpm|]. unfold convertMessage in Hconv.
    destruct (mapResult toAnthropicMessageContent (content m)) as [bs|e] eqn:Hbs;
      [|discriminate Hconv].
    simpl in Hconv.
    destruct (role m); simpl in Hconv; try discriminate Hconv;
      injection Hconv as <-; simpl;
      (split; [reflexivity|]);
      (split; [now apply mapResult_length in Hbs|]);
      repeat split; congruence.
Qed.

Lemma toAnthropicMessages_positions_witness :
  length [mkMessageParam role_user [TextBlock (Some "hi")]]
  = length (messagesToIterate Sample.systemThenUser)
  /\ forall i m,
       nth_error (messagesToIterate Sample.systemThenUser) i = Some m ->
       exists pm,
         nth_error [mkMessageParam role_user [TextBlock (Some "hi")]] i = Some pm
         /\ mapResult toAnthropicMessageContent (content m) = Ok (mp_content pm)
         /\ length (mp_content pm) = length (content m)
         /\ role m <> system
         /\ (role m = user -> mp_role pm = role_user)
         /\ (role m = model -> mp_role pm = role_assistant).
Proof.
  exact (toAnthropicMessages_positions Sample.systemThenUser _ eq_refl).
Defined.

(** X20.  A message of role [system] anywhere after the first position makes
    the converter throw. *)
Theorem toAnthropicMessages_late_system (msgs : list MessageData) (i : nat)
    (m : MessageData) :
  nth_error msgs (S i) = Some m ->
  role m = system ->
  exists e, toAnthropicMessages msgs = Err e.
Proof.
  intros Hnth Hr.
  assert (Hin : In m (messagesToIterate msgs)).
  { unfold messagesToIterate. destruct msgs as [|first rest]; [discriminate Hnth|].
    simpl in Hnth. apply nth_error_In in Hnth.
    destruct (Js.truthyOptString (systemOf (first :: rest))); simpl; auto. }
  destruct (convertMessage_system m Hr) as [e0 He0].
  destruct (mapResult_In_Err convertMessage _ m e0 Hin He0) as [e He].
  exists e. unfold toAnthropicMessages. rewrite convertLoop_mapResult, He.
  reflexivity.
Qed.

Lemma toAnthropicMessages_late_system_witness :
  exists e,
    toAnthropicMessages
      [mkMessageData user [textPart "hi"]; mkMessageData system [textPart "S"]]
    = Err e.
Proof.
  exact (toAnthropicMessages_late_system
           [mkMessageData user [textPart "hi"]; mkMessageData system [textPart "S"]]
           0 (mkMessageData system [textPart "S"]) eq_refl eq_refl).
Defined.

(** X21.  Of a leading system message only the first part is read: when its
    text is not empty it is the system string, and the parts that follow are
    dropped without error, whatever they are. *)
Theorem toAnthropicMessages_system_first_part (first : MessageData)
    (rest : list MessageData) (p : Part) (ps : list Part) (s : string) :
  role first = system ->
  content first = p :: ps ->
  text p = Some s ->
  s <> "" ->
  toAnthropicMessages (first :: rest)
  = toAnthropicMessages (mkMessageData system [textPart s] :: rest)
  /\ forall r, toAnthropicMessages (first :: rest) = Ok r -> am_system r = Some s.
Proof.
  intros Hr Hc Ht Hs.
  rewrite (toAnthropicMessages_system first rest p ps s Hr Hc Ht Hs).
  rewrite (toAnthropicMessages_system (mkMessageData system [textPart s]) rest
             (textPart s) [] s eq_refl eq_refl eq_refl Hs).
  split; [reflexivity|].
  intros r. destruct (mapResult convertMessage rest); simpl; [|discriminate].
  now intros [= <-].
Qed.

Lemma toAnthropicMessages_system_first_part_witness :
  toAnthropicMessages
    [mkMessageData system [textPart "S"; mediaPart Sample.remoteMedia];
     mkMessageData user [textPart "hi"]]
  = toAnthropicMessages Sample.systemThenUser
  /\ forall r,
       toAnthropicMessages
         [mkMessageData system [textPart "S"; mediaPart Sample.remoteMedia];
          mkMessageData user [textPart "hi"]] = Ok r ->
       am_system r = Some "S".
Proof.
  apply (toAnthropicMessages_system_first_part
           (mkMessageData system [textPart "S"; mediaPart Sample.remoteMedia])
           [mkMessageData user [textPart "hi"]]
           (textPart "S") [mediaPart Sample.remoteMedia] "S"
           eq_refl eq_refl eq_refl).
  discriminate.
Defined.

(** X22.  The converter stops at the first message that fails to convert and
    throws the error of that message: messages after it are not looked
    at. *)
Theorem toAnthropicMessages_first_error (msgs pre post : list MessageData)
    (m : MessageData) (out : list MessageParam) (e : Error) :
  messagesToIterate msgs = (pre ++ m :: post)%list ->
  mapResult convertMessage pre = Ok out ->
  convertMessage m = Err e ->
  toAnthropicMessages msgs = Err e.
Proof.
  intros Hsplit Hpre Hm. unfold toAnthropicMessages.
  rewrite convertLoop_mapResult, Hsplit.
  now rewrite (mapResult_app_Err convertMessage pre post m out e Hpre Hm).
Qed.

Lemma toAnthropicMessages_first_error_witness :
  toAnthropicMessages
    [mkMessageData user [textPart "hi"];
     mkMessageData user [mediaPart Sample.remoteMedia];
     mkMessageData system [textPart "late"]]
  = Err (InvalidPartMedia Sample.remoteMedia).
Proof.
  exact (toAnthropicMessages_first_error
           [mkMessageData user [textPart "hi"];
            mkMessageData user [mediaPart Sample.remoteMedia];
            mkMessageData system [textPart "late"]]
           [mkMessageData user [textPart "hi"]]
           [mkMessageData system [textPart "late"]]
           (mkMessageData user [mediaPart Sample.remoteMedia])
           _ _ eq_refl eq_refl eq_refl).
Defined.

(** ** Runner *)

Lemma streamLoop_emitted (events : list MessageStreamEvent) (log : list Effect) :
  streamLoop events log = (log ++ map Callback (emitted events))%list.
Proof.
  revert log. induction events as [|event events IH]; intros log; simpl.
  - now rewrite app_nil_r.
  - unfold emitted. simpl. fold (emitted events).
    destruct (fromAnthropicContentBlockChunk event) as [c|]; simpl.
    + now rewrite IH, <- app_assoc.
    + apply IH.
Qed.

Lemma callbacks_map_Callback (chunks : list GenerateResponseChunkData) :
  callbacks (map Callback chunks) = chunks.
Proof.
  unfold callbacks. induction chunks as [|c chunks IH]; simpl; [reflexivity|].
  now rewrite IH.
Qed.

Lemma clientCalls_map_Callback (chunks : list GenerateResponseChunkData) :
  clientCalls (map Callback chunks) = [].
Proof. unfold clientCalls. induction chunks; simpl; auto. Qed.

Lemma emitted_length (events : list MessageStreamEvent) :
  length (emitted events) = length (filter convertible events).
Proof.
  unfold emitted. induction events as [|event events IH]; simpl; [reflexivity|].
  rewrite length_app, IH. destruct event; reflexivity.
Qed.

(** X23.  With a streaming callback, the runner opens one stream with a body
    that carries [stream: true], then calls the callback once for each block
    start and block delta of the stream, in arrival order and for no other
    event, each time with index 0 and a single part; its outcome is that of
    the finalized message alone, whatever was streamed. *)
Theorem claudeRunner_streaming (name : string) (client : Client)
    (request : GenerateRequest) (body : Body)
    (events : list MessageStreamEvent) (final : ClientAnswer) :
  toAnthropicRequestBody name request (Some true) = Ok body ->
  messages_stream client body = (events, final) ->
  fst (claudeRunner name client request true)
  = CallStream body :: map Callback (emitted events)
  /\ BodyOps.get "stream" body = Some (BBoolean true)
  /\ length (callbacks (fst (claudeRunner name client request true)))
     = length (filter convertible events)
  /\ (forall chunk,
         In chunk (callbacks (fst (claudeRunner name client request true))) ->
         chunk_index chunk = 0 /\ length (chunk_content chunk) = 1)
  /\ snd (claudeRunner name client request true) = settle final.
Proof.
  intros Hbody Hstream. unfold claudeRunner. rewrite Hbody, Hstream. simpl.
  rewrite streamLoop_emitted. simpl. rewrite callbacks_map_Callback.
  split; [reflexivity|]. split.
  - destruct (toAnthropicRequestBody_get _ _ _ _ Hbody) as (mv & cv & _ & _ & Hget).
    rewrite Hget. reflexivity.
  - split; [apply emitted_length|]. split; [|reflexivity].
    intros chunk Hin. unfold emitted in Hin.
    apply in_flat_map in Hin as (event & _ & Hin).
    destruct (fromAnthropicContentBlockChunk event); [|contradiction].
    destruct Hin as [<-|[]]. split; reflexivity.
Qed.

Lemma claudeRunner_streaming_witness :
  fst (claudeRunner "claude-3-haiku" Fixture.client Fixture.userHi true)
  = CallStream (Fixture.userHiBody ++ [("stream", BBoolean true)])%list
      :: map Callback
           [ mkGenerateResponseChunkData 0 [ChunkText (Some "")];
             mkGenerateResponseChunkData 0 [ChunkText (Some "Let me")];
             mkGenerateResponseChunkData 0 [ChunkText (Some " check.")] ]
  /\ snd (claudeRunner "claude-3-haiku" Fixture.client Fixture.userHi true)
     = Resolved (fromAnthropicResponse Fixture.toolCall).
Proof.
  destruct (claudeRunner_streaming "claude-3-haiku" Fixture.client Fixture.userHi
              (Fixture.userHiBody ++ [("stream", BBoolean true)])%list
              Fixture.textEvents (Answered Fixture.toolCall) eq_refl eq_refl)
    as (Hlog & _ & _ & _ & Hout).
  split; [exact Hlog|exact Hout].
Defined.

(** X24.  Without a streaming callback, the runner makes one [create] call
    and no callback; the body of the call has no [stream] key and is the body
    built without flag; the outcome is that of the answer. *)
Theorem claudeRunner_plain (name : string) (client : Client)
    (request : GenerateRequest) (body : Body) :
  toAnthropicRequestBody name request (Some false) = Ok body ->
  claudeRunner name client request false
  = ([CallCreate body], settle (messages_create client body))
  /\ callbacks (fst (claudeRunner name client request false)) = []
  /\ BodyOps.get "stream" body = None
  /\ toAnthropicRequestBody name request None = Ok body.
Proof.
  intros Hbody. unfold claudeRunner. rewrite Hbody. simpl.
  split; [reflexivity|]. split; [reflexivity|]. split.
  - destruct (toAnthropicRequestBody_get _ _ _ _ Hbody) as (mv & cv & _ & _ & Hget).
    rewrite Hget. reflexivity.
  - unfold toAnthropicRequestBody in *.
    destruct (lookupModelVersion name) as [mv|]; [|discriminate Hbody].
    destruct (toAnthropicMessages (messages request)) as [cv|]; [|discriminate Hbody].
    simpl in *. destruct (nonTextFormat request); [discriminate Hbody|].
    injection Hbody as <-. f_equal.
    rewrite !strip_filter by apply bodyLiteral_NoDup. reflexivity.
Qed.

Lemma claudeRunner_plain_witness :
  claudeRunner "claude-3-haiku" Fixture.client Fixture.userHi false
  = ([CallCreate Fixture.userHiBody], Resolved (fromAnthropicResponse Fixture.toolCall))
  /\ BodyOps.get "stream" Fixture.userHiBody = None.
Proof.
  destruct (claudeRunner_plain "claude-3-haiku" Fixture.client Fixture.userHi
              Fixture.userHiBody eq_refl) as (Hrun & _ & Hget & _).
  split; [exact Hrun|exact Hget].
Defined.

(** X25.  The runner calls the client at most once per run, and before any
    callback: exactly once when the body builds, with the call that matches
    the presence of the callback; when the body builder throws, the client is
    not called, no callback is made, and the error of the builder is the
    outcome. *)
Theorem claudeRunner_client_calls (name : string) (client : Client)
    (request : GenerateRequest) (streamingCallback : bool) :
  match toAnthropicRequestBody name request (Some streamingCallback) with
  | Ok body =>
      clientCalls (fst (claudeRunner name client request streamingCallback))
      = [clientCall streamingCallback body]
      /\ hd_error (fst (claudeRunner name client request streamingCallback))
         = Some (clientCall streamingCallback body)
  | Err e =>
      claudeRunner name client request streamingCallback = ([], Failed (BodyError e))
  end.
Proof.
  unfold claudeRunner.
  destruct (toAnthropicRequestBody name request (Some streamingCallback))
    as [body|e]; [|reflexivity].
  destruct streamingCallback; [|split; reflexivity].
  destruct (messages_stream client body) as [events final]. simpl.
  rewrite streamLoop_emitted. simpl. rewrite clientCalls_map_Callback.
  split; reflexivity.
Qed.
